(** * Calculator: the expression engine of [calculator.py]

    A shallow embedding of the core of [CalcApp] (the methods that build,
    normalise, evaluate and format an arithmetic expression) together with
    the fragment of the Python runtime those methods call, and the
    properties of the engine stated in the design document. *)

From Stdlib Require Import ZArith Lia List Bool Ascii String Floats.
From Stdlib Require Import Numbers.DecimalString.
Import ListNotations.
Open Scope string_scope.

(** ** Part I.  The Python runtime, as far as the calculator uses it *)

(** Exceptions the modelled runtime can raise. *)
Inductive exn : Set :=
| SyntaxError | KeyError | ValueError | ZeroDivisionError
| TypeError | IndexError | OverflowError.

(** Outcome of a runtime call: a value, an exception, or [Unmodelled] when
    the call leaves the fragment of Python this development describes. *)
Inductive res (A : Type) : Type :=
| Ok (a : A)
| Raise (e : exn)
| Unmodelled.
Arguments Ok {A} a.
Arguments Raise {A} e.
Arguments Unmodelled {A}.

Definition bind {A B : Type} (r : res A) (k : A -> res B) : res B :=
  match r with
  | Ok a => k a
  | Raise e => Raise e
  | Unmodelled => Unmodelled
  end.

Notation "x <- r ;; k" := (bind r (fun x => k))
  (at level 61, r at next level, right associativity).
Notation "' p <- r ;; k" := (bind r (fun x => let 'p := x in k))
  (at level 61, p pattern, r at next level, right associativity).

Module Str.

(** A Python [str] is modelled as a [string] whose characters are the
    code points 0..255. *)

(** [c.isnumeric()] on those code points: the decimal digits, the
    superscripts U+00B2, U+00B3, U+00B9 and the fractions U+00BC..U+00BE. *)
Definition isnumeric (c : ascii) : bool :=
  let n := nat_of_ascii c in
  (((48 <=? n) && (n <=? 57)) || (n =? 178) || (n =? 179) || (n =? 185)
   || ((188 <=? n) && (n <=? 190)))%nat.

(** [s[i]] for [i >= 0]. *)
Definition index (s : string) (i : nat) : res ascii :=
  match String.get i s with
  | Some c => Ok c
  | None => Raise IndexError
  end.

(** [s[:k]] and [s[k:]] for [k >= 0]. *)
Fixpoint slice_to (k : nat) (s : string) : string :=
  match k, s with
  | S k', String c s' => String c (slice_to k' s')
  | _, _ => ""
  end.

Fixpoint slice_from (k : nat) (s : string) : string :=
  match k, s with
  | S k', String _ s' => slice_from k' s'
  | _, _ => s
  end.

(** [sep.join(l)]. *)
Fixpoint join (sep : string) (l : list string) : string :=
  match l with
  | [] => ""
  | [x] => x
  | x :: rest => x ++ sep ++ join sep rest
  end.

(** [s.replace('**', '^')]: non-overlapping occurrences, left to right. *)
Fixpoint replace_pow (s : string) : string :=
  match s with
  | String "*" (String "*" rest) => String "^" (replace_pow rest)
  | String c rest => String c (replace_pow rest)
  | "" => ""
  end.

(** [list(s)]: the one-character strings of [s]. *)
Fixpoint chars (s : string) : list string :=
  match s with
  | "" => []
  | String c rest => String c "" :: chars rest
  end.

(** [[pos for pos, char in enumerate(s) if char is parenth]], counting
    from [pos]; on one-character strings, which the interpreter shares,
    [is] coincides with equality. *)
Fixpoint positions_from (parenth : ascii) (pos : nat) (s : string) : list nat :=
  match s with
  | "" => []
  | String char rest =>
      if Ascii.eqb char parenth
      then pos :: positions_from parenth (S pos) rest
      else positions_from parenth (S pos) rest
  end.

End Str.

(** *** Integers and binary64 floats *)

Module Num.
#[local] Open Scope Z_scope.

(** [str(z)] for an [int]. *)
Definition str_of_Z (z : Z) : string := NilZero.string_of_int (Z.to_int z).

Definition is_digit (c : ascii) : bool :=
  let n := nat_of_ascii c in ((48 <=? n) && (n <=? 57))%nat.

Definition digit_val (c : ascii) : Z := Z.of_nat (nat_of_ascii c) - 48.

(** Value of a run of decimal digits, read after the digits [acc]. *)
Fixpoint Z_of_digits (acc : Z) (s : string) : Z :=
  match s with
  | "" => acc
  | String c rest => Z_of_digits (10 * acc + digit_val c) rest
  end.

Fixpoint all_digits (s : string) : bool :=
  match s with
  | "" => true
  | String c rest => is_digit c && all_digits rest
  end.

(** Binary64: 53 bits of precision, exponent of the infinities 1024. *)
Definition prec : Z := 53.
Definition emax : Z := 1024.

(** The float nearest to [num / den] (ties to even), for [0 <= num] and
    [0 < den]; [neg] is the sign. *)
Definition float_of_ratio (neg : bool) (num den : Z) : float :=
  match num, den with
  | Zpos n, Zpos d =>
      SF2Prim (SFdiv prec emax (S754_finite neg n 0) (S754_finite false d 0))
  | _, _ => SF2Prim (S754_zero neg)
  end.

(** [float(z)] for an [int]: nearest float, [OverflowError] beyond the
    finite range. *)
Definition float_of_Z (z : Z) : res float :=
  match binary_normalize prec emax z 0 false with
  | S754_infinity _ => Raise OverflowError
  | sf => Ok (SF2Prim sf)
  end.

(** [x.is_integer()]. *)
Definition is_integer (x : float) : bool :=
  match Prim2SF x with
  | S754_zero _ => true
  | S754_finite _ m e =>
      (0 <=? e) || (Zpos m mod 2 ^ (- e) =? 0)
  | _ => false
  end.

(** [int(x)]: truncation towards zero. *)
Definition int_of_float (x : float) : res Z :=
  match Prim2SF x with
  | S754_zero _ => Ok 0
  | S754_finite s m e =>
      let a := if 0 <=? e then Zpos m * 2 ^ e else Zpos m / 2 ^ (- e) in
      Ok (if s then - a else a)
  | S754_infinity _ => Raise OverflowError
  | S754_nan => Raise ValueError
  end.

Fixpoint zeros (n : nat) : string :=
  match n with
  | O => ""
  | S n' => String "0" (zeros n')
  end.

(** [q] rounded to an integer, ties to even, for [0 <= num], [0 < den]. *)
Definition round_half_even (num den : Z) : Z :=
  let q := num / den in
  let r := num mod den in
  match 2 * r ?= den with
  | Lt => q
  | Gt => q + 1
  | Eq => if Z.even q then q else q + 1
  end.

Definition substring_to (n : nat) (s : string) : string := String.substring 0 n s.
Definition substring_from (n : nat) (s : string) : string :=
  String.substring n (String.length s - n) s.

(** ['{:.{p}f}'.format(x)] for [p >= 0]: the exact value of [x] rounded
    to [p] decimals, ties to even. *)
Definition format_fixed (p : nat) (x : float) : string :=
  match Prim2SF x with
  | S754_nan => "nan"
  | S754_infinity s => if s then "-inf" else "inf"
  | sf =>
      let '(s, num, den) :=
        match sf with
        | S754_finite s m e =>
            if 0 <=? e then (s, Zpos m * 2 ^ e, 1) else (s, Zpos m, 2 ^ (- e))
        | S754_zero s => (s, 0, 1)
        | _ => (false, 0, 1)
        end in
      let q := round_half_even (num * 10 ^ Z.of_nat p) den in
      let ds := str_of_Z q in
      let ds := String.append (zeros (S p - String.length ds)) ds in
      let k := (String.length ds - p)%nat in
      String.concat ""
        [if s then "-" else ""; substring_to k ds;
         if (p =? 0)%nat then "" else String "." (substring_from k ds)]
  end.

(** [x < 10^k] for the positive rational [x = num / den]. *)
Definition below_pow10 (num den k : Z) : bool :=
  if 0 <=? k then num <? den * 10 ^ k else num * 10 ^ (- k) <? den.

Fixpoint first_pow10_above (fuel : nat) (num den k : Z) : Z :=
  match fuel with
  | O => k
  | S fuel' =>
      if below_pow10 num den k then k
      else first_pow10_above fuel' num den (k + 1)
  end.

(** The decimal point of [num / den > 0]: the [k] with
    [10^(k-1) <= num / den < 10^k]. *)
Definition decimal_point (num den : Z) : Z :=
  let k0 := (Z.log2 num - Z.log2 den - 1) * 30103 / 100000 - 1 in
  first_pow10_above 8 num den k0.

Fixpoint strip_zeros_rev (s : list ascii) : list ascii :=
  match s with
  | "0"%char :: rest => strip_zeros_rev rest
  | _ => s
  end.

Definition strip_trailing_zeros (s : string) : string :=
  string_of_list_ascii (rev (strip_zeros_rev (rev (list_ascii_of_string s)))).

(** The shortest decimal digits that read back as [x = num / den > 0]
    (the closest to [x] among them), tried from [n] digits on, with the
    position of the decimal point. *)
Fixpoint shortest_digits (fuel : nat) (x : float) (num den k : Z) (n : Z)
  : string * Z :=
  let a := Z.max (n - k) 0 in
  let b := Z.max (k - n) 0 in
  let N := num * 10 ^ a in
  let D := den * 10 ^ b in
  let q := N / D in
  let r := N mod D in
  let back c := float_of_ratio false (c * 10 ^ b) (10 ^ a) in
  let lo_ok := PrimFloat.eqb (back q) x in
  let hi_ok := negb (r =? 0) && PrimFloat.eqb (back (q + 1)) x in
  let pick c :=
    let ds := str_of_Z c in
    (strip_trailing_zeros ds, k + (Z.of_nat (String.length ds) - n)) in
  match fuel with
  | O => pick q
  | S fuel' =>
      if lo_ok && hi_ok then
        match 2 * r ?= D with
        | Lt => pick q
        | Gt => pick (q + 1)
        | Eq => if Z.even q then pick q else pick (q + 1)
        end
      else if lo_ok then pick q
      else if hi_ok then pick (q + 1)
      else shortest_digits fuel' x num den k (n + 1)
  end.

(** [repr(x)], which is also [str(x)], for a float. *)
Definition float_repr (x : float) : string :=
  match Prim2SF x with
  | S754_nan => "nan"
  | S754_infinity s => if s then "-inf" else "inf"
  | S754_zero s => if s then "-0.0" else "0.0"
  | S754_finite s m e =>
      let num := if 0 <=? e then Zpos m * 2 ^ e else Zpos m in
      let den := if 0 <=? e then 1 else 2 ^ (- e) in
      let k := decimal_point num den in
      let '(ds, decpt) := shortest_digits 17 (abs x) num den k 1 in
      let len := Z.of_nat (String.length ds) in
      let body :=
        if (decpt <=? -4) || (16 <? decpt) then
          let ex := decpt - 1 in
          String.concat ""
            [substring_to 1 ds;
             if len =? 1 then "" else String "." (substring_from 1 ds);
             "e"; if ex <? 0 then "-" else "+";
             if Z.abs ex <? 10 then "0" else ""; str_of_Z (Z.abs ex)]
        else if decpt <=? 0 then
          String.concat "" ["0."; zeros (Z.to_nat (- decpt)); ds]
        else if decpt <? len then
          String.concat ""
            [substring_to (Z.to_nat decpt) ds; ".";
             substring_from (Z.to_nat decpt) ds]
        else String.concat "" [ds; zeros (Z.to_nat (decpt - len)); ".0"] in
      String.concat "" [if s then "-" else ""; body]
  end.

End Num.

(** *** Values, [str], [float] and [eval] *)

Module Py.
Import Num.
#[local] Open Scope Z_scope.

(** The Python objects the calculator handles. *)
Inductive value : Set :=
| PInt (z : Z)
| PFloat (x : float)
| PStr (s : string).

(** [str(v)].  Converting an [int] of more than 4300 digits depends on
    the interpreter version and is left out. *)
Definition py_str (v : value) : res string :=
  match v with
  | PInt z => if Z.abs z <? 10 ^ 4300 then Ok (str_of_Z z) else Unmodelled
  | PFloat x => Ok (float_repr x)
  | PStr s => Ok s
  end.

(** Characters that occur in no string [float()] accepts. *)
Definition never_in_float (c : ascii) : bool :=
  let n := nat_of_ascii c in
  (((33 <=? n) && (n <=? 42)) || (n =? 44) || (n =? 47)
   || ((58 <=? n) && (n <=? 64)) || ((91 <=? n) && (n <=? 94))
   || (n =? 96) || ((123 <=? n) && (n <=? 126)))%nat.

Definition float_char (c : ascii) : bool :=
  is_digit c || Ascii.eqb c "." || Ascii.eqb c "+" || Ascii.eqb c "-".

Fixpoint existsb_string (p : ascii -> bool) (s : string) : bool :=
  match s with
  | "" => false
  | String c rest => p c || existsb_string p rest
  end.

Fixpoint forallb_string (p : ascii -> bool) (s : string) : bool :=
  match s with
  | "" => true
  | String c rest => p c && forallb_string p rest
  end.

(** The digits before the first ['.'] and, if there is one, the
    characters after it. *)
Fixpoint split_point (s : string) : string * option string :=
  match s with
  | "" => ("", None)
  | String c rest =>
      if Ascii.eqb c "." then ("", Some rest)
      else let '(i, f) := split_point rest in (String c i, f)
  end.

(** The unsigned decimal numeral [s] as a float (ties to even). *)
Definition float_of_decimal (neg : bool) (s : string) : res float :=
  let '(i, f) := split_point s in
  let f' := match f with Some d => d | None => "" end in
  if all_digits i && all_digits f'
     && negb ((String.length i =? 0)%nat && (String.length f' =? 0)%nat)
  then Ok (float_of_ratio neg (Z_of_digits 0 (i ++ f'))
                          (10 ^ Z.of_nat (String.length f')))
  else Raise ValueError.

(** [float(s)] on strings of digits, ['.'], ['+'] and ['-'] (a numeral
    with an optional sign, or [ValueError]) and on strings holding a
    character no float literal contains ([ValueError]); exponents,
    underscores, blanks and names are left out. *)
Definition py_float (s : string) : res float :=
  if existsb_string never_in_float s then Raise ValueError
  else if forallb_string float_char s then
    match s with
    | String "-" rest => float_of_decimal true rest
    | String "+" rest => float_of_decimal false rest
    | _ => float_of_decimal false s
    end
  else Unmodelled.

(** **** The arithmetic fragment of [eval] *)

Inductive token : Set :=
| TNum (v : value)
| TPlus | TMinus | TStar | TSlash | TDoubleSlash | TPercent | TPow
| TLParen | TRParen.

(** A numeral being read: its digits before the point and, once a point
    was seen, the digits after it. *)
Definition pending : Set := (string * option string)%type.

(** The token of a finished numeral.  A decimal integer with a leading
    zero and a non-zero value is a syntax error; a point without any
    digit is not a numeral (it belongs to [...] or to an attribute
    reference) and is left out. *)
Definition flush (p : option pending) : res (list token) :=
  match p with
  | None => Ok []
  | Some (i, None) =>
      let z := Z_of_digits 0 i in
      match i with
      | String "0" (String _ _) =>
          if z =? 0 then Ok [TNum (PInt z)] else Raise SyntaxError
      | _ => Ok [TNum (PInt z)]
      end
  | Some (i, Some f) =>
      if ((String.length i =? 0) && (String.length f =? 0))%nat
      then Unmodelled
      else Ok [TNum (PFloat (float_of_ratio false (Z_of_digits 0 (i ++ f))
                                            (10 ^ Z.of_nat (String.length f))))]
  end.

Definition emit (p : option pending) (t : token) (k : res (list token))
  : res (list token) :=
  n <- flush p ;; ts <- k ;; Ok (n ++ t :: ts)%list.

Fixpoint lex (p : option pending) (s : string) : res (list token) :=
  match s with
  | "" => flush p
  | String "*" (String "*" rest) => emit p TPow (lex None rest)
  | String "/" (String "/" rest) => emit p TDoubleSlash (lex None rest)
  | String c rest =>
      if is_digit c then
        match p with
        | None => lex (Some (String c "", None)) rest
        | Some (i, None) => lex (Some (i ++ String c "", None)) rest
        | Some (i, Some f) => lex (Some (i, Some (f ++ String c ""))) rest
        end
      else if Ascii.eqb c "." then
        match p with
        | None => lex (Some ("", Some "")) rest
        | Some (i, None) => lex (Some (i, Some "")) rest
        | Some (_, Some _) =>
            n <- flush p ;; ts <- lex (Some ("", Some "")) rest ;;
            Ok (n ++ ts)%list
        end
      else if Ascii.eqb c "+" then emit p TPlus (lex None rest)
      else if Ascii.eqb c "-" then emit p TMinus (lex None rest)
      else if Ascii.eqb c "*" then emit p TStar (lex None rest)
      else if Ascii.eqb c "/" then emit p TSlash (lex None rest)
      else if Ascii.eqb c "%" then emit p TPercent (lex None rest)
      else if Ascii.eqb c "(" then emit p TLParen (lex None rest)
      else if Ascii.eqb c ")" then emit p TRParen (lex None rest)
      else Unmodelled
  end.

Inductive unop : Set := UPlus | UMinus.
Inductive binop : Set := Add | Sub | Mul | Div | FloorDiv | Mod | Pow.

Inductive expr : Set :=
| ENum (v : value)
| EUn (o : unop) (e : expr)
| EBin (o : binop) (l r : expr)
| ECall0 (f : expr)
| ECall1 (f arg : expr).

(** Nonterminals of the expression grammar; the [Rest] ones carry the
    operand read so far of a left-associative chain. *)
Inductive nonterminal : Set :=
| NSum | NSumRest (l : expr)
| NTerm | NTermRest (l : expr)
| NFactor | NPower
| NPrimary | NPrimaryRest (l : expr)
| NAtom.

(** Recursive descent on Python's grammar: [sum], [term], [factor]
    (unary sign), [power] (right-associative, binding tighter than a
    sign on its left), [primary] (calls) and [atom].  The empty tuple
    [()] and starred call arguments are left out, as is an input on
    which the fuel runs out. *)
Fixpoint parse (fuel : nat) (n : nonterminal) (ts : list token)
  : res (expr * list token) :=
  match fuel with
  | O => Unmodelled
  | S fuel' =>
      let sub := parse fuel' in
      match n with
      | NSum => '(l, ts1) <- sub NTerm ts ;; sub (NSumRest l) ts1
      | NSumRest l =>
          match ts with
          | TPlus :: ts' =>
              '(r, ts2) <- sub NTerm ts' ;; sub (NSumRest (EBin Add l r)) ts2
          | TMinus :: ts' =>
              '(r, ts2) <- sub NTerm ts' ;; sub (NSumRest (EBin Sub l r)) ts2
          | _ => Ok (l, ts)
          end
      | NTerm => '(l, ts1) <- sub NFactor ts ;; sub (NTermRest l) ts1
      | NTermRest l =>
          match ts with
          | TStar :: ts' =>
              '(r, ts2) <- sub NFactor ts' ;; sub (NTermRest (EBin Mul l r)) ts2
          | TSlash :: ts' =>
              '(r, ts2) <- sub NFactor ts' ;; sub (NTermRest (EBin Div l r)) ts2
          | TDoubleSlash :: ts' =>
              '(r, ts2) <- sub NFactor ts' ;;
              sub (NTermRest (EBin FloorDiv l r)) ts2
          | TPercent :: ts' =>
              '(r, ts2) <- sub NFactor ts' ;; sub (NTermRest (EBin Mod l r)) ts2
          | _ => Ok (l, ts)
          end
      | NFactor =>
          match ts with
          | TPlus :: ts' => '(e, ts1) <- sub NFactor ts' ;; Ok (EUn UPlus e, ts1)
          | TMinus :: ts' => '(e, ts1) <- sub NFactor ts' ;; Ok (EUn UMinus e, ts1)
          | _ => sub NPower ts
          end
      | NPower =>
          '(b, ts1) <- sub NPrimary ts ;;
          match ts1 with
          | TPow :: ts' => '(e, ts2) <- sub NFactor ts' ;; Ok (EBin Pow b e, ts2)
          | _ => Ok (b, ts1)
          end
      | NPrimary => '(a, ts1) <- sub NAtom ts ;; sub (NPrimaryRest a) ts1
      | NPrimaryRest a =>
          match ts with
          | TLParen :: TRParen :: ts' => sub (NPrimaryRest (ECall0 a)) ts'
          | TLParen :: TStar :: _ => Unmodelled
          | TLParen :: TPow :: _ => Unmodelled
          | TLParen :: ts' =>
              '(arg, ts2) <- sub NSum ts' ;;
              match ts2 with
              | TRParen :: ts3 => sub (NPrimaryRest (ECall1 a arg)) ts3
              | _ => Raise SyntaxError
              end
          | _ => Ok (a, ts)
          end
      | NAtom =>
          match ts with
          | TNum v :: ts' => Ok (ENum v, ts')
          | TLParen :: TRParen :: _ => Unmodelled
          | TLParen :: ts' =>
              '(e, ts1) <- sub NSum ts' ;;
              match ts1 with
              | TRParen :: ts2 => Ok (e, ts2)
              | _ => Raise SyntaxError
              end
          | _ => Raise SyntaxError
          end
      end
  end.

Definition parse_expression (ts : list token) : res expr :=
  '(e, rest) <- parse (8 * List.length ts + 8) NSum ts ;;
  match rest with
  | [] => Ok e
  | _ => Raise SyntaxError
  end.

(** The operand of a float operation. *)
Definition as_float (v : value) : res float :=
  match v with
  | PInt z => float_of_Z z
  | PFloat x => Ok x
  | PStr _ => Unmodelled
  end.

(** [a / b] on two [int]s: the quotient correctly rounded. *)
Definition int_true_divide (a b : Z) : res value :=
  if b =? 0 then Raise ZeroDivisionError
  else
    let q := float_of_ratio (xorb (a <? 0) (b <? 0)) (Z.abs a) (Z.abs b) in
    if is_infinity q then Raise OverflowError else Ok (PFloat q).

Definition float_binop (o : binop) (x y : float) : res value :=
  match o with
  | Add => Ok (PFloat (x + y)%float)
  | Sub => Ok (PFloat (x - y)%float)
  | Mul => Ok (PFloat (x * y)%float)
  | Div => if PrimFloat.eqb y 0%float then Raise ZeroDivisionError
           else Ok (PFloat (x / y)%float)
  | FloorDiv | Mod | Pow => Unmodelled
  end.

(** A binary operator on two numbers.  Float [//], [%] and [**], and
    an [int] raised to a negative [int] (computed in floating point by
    the C library) are left out. *)
Definition apply_binop (o : binop) (a b : value) : res value :=
  match a, b with
  | PInt x, PInt y =>
      match o with
      | Add => Ok (PInt (x + y))
      | Sub => Ok (PInt (x - y))
      | Mul => Ok (PInt (x * y))
      | Div => int_true_divide x y
      | FloorDiv => if y =? 0 then Raise ZeroDivisionError else Ok (PInt (x / y))
      | Mod => if y =? 0 then Raise ZeroDivisionError else Ok (PInt (x mod y))
      | Pow => if 0 <=? y then Ok (PInt (x ^ y))
               else if x =? 0 then Raise ZeroDivisionError else Unmodelled
      end
  | PStr _, _ | _, PStr _ => Unmodelled
  | _, _ => x <- as_float a ;; y <- as_float b ;; float_binop o x y
  end.

Definition apply_unop (o : unop) (a : value) : res value :=
  match o, a with
  | _, PStr _ => Unmodelled
  | UPlus, _ => Ok a
  | UMinus, PInt x => Ok (PInt (- x))
  | UMinus, PFloat x => Ok (PFloat (- x)%float)
  end.

(** Operands are evaluated left to right; calling a number evaluates
    the callee and the argument and then fails with [TypeError]. *)
Fixpoint eval_expr (e : expr) : res value :=
  match e with
  | ENum v => Ok v
  | EUn o e1 => a <- eval_expr e1 ;; apply_unop o a
  | EBin o l r => a <- eval_expr l ;; b <- eval_expr r ;; apply_binop o a b
  | ECall0 f => _ <- eval_expr f ;; Raise TypeError
  | ECall1 f arg => _ <- eval_expr f ;; _ <- eval_expr arg ;; Raise TypeError
  end.

(** [eval(s)] on the arithmetic fragment: strings of at most 150
    characters (the interpreter's limits on nesting and recursion are
    not reached) over digits, ['.'], the operators [+ - * / // % **] and
    parentheses. *)
Definition py_eval (s : string) : res value :=
  if (150 <? String.length s)%nat then Unmodelled
  else ts <- lex None s ;; e <- parse_expression ts ;; eval_expr e.

End Py.

(** ** Part II.  [CalcApp.parseParentheses] *)

Module Normalizer.
Import Str.

(** The four nested tests of the inner loop body: a left neighbour
    exists and is numeric, a right neighbour exists and is numeric. *)
Definition no_adjacent_operator (cur : string) (parenthPos : nat) : res bool :=
  if (0 <? parenthPos)%nat then
    l <- index cur (parenthPos - 1) ;;
    if isnumeric l then
      if negb (Z.of_nat parenthPos =? Z.of_nat (String.length cur) - 1)%Z then
        r <- index cur (parenthPos + 1) ;;
        Ok (isnumeric r)
      else Ok false
    else Ok false
  else Ok false.

Definition insert_star (slice : nat) (cur : string) : string :=
  slice_to slice cur ++ "*" ++ slice_from slice cur.

(** [for innerIndex, parenthPos in enumerate(parenthPosList)]: the list
    is read by index at every step, so the in-place [+= 1] of all its
    entries is seen by the later iterations. *)
Fixpoint inner_loop (isLeft : bool) (parenthCount todo innerIndex : nat)
         (cur : string) (parenthPosList : list nat) : res string :=
  match todo with
  | O => Ok cur
  | S todo' =>
      match nth_error parenthPosList innerIndex with
      | None => Ok cur
      | Some parenthPos =>
          found <- no_adjacent_operator cur parenthPos ;;
          if found : bool then
            let posAdjustment := if isLeft then 0 else 1 in
            let slice := parenthPos + posAdjustment in
            let cur' := insert_star slice cur in
            let parenthPosList' :=
              if negb (innerIndex =? parenthCount)%nat
              then map S parenthPosList else parenthPosList in
            inner_loop isLeft parenthCount todo' (S innerIndex) cur' parenthPosList'
          else
            inner_loop isLeft parenthCount todo' (S innerIndex) cur parenthPosList
      end
  end.

(** [parenth = '(' if isLeft else ')']. *)
Definition parenth_of (isLeft : bool) : ascii :=
  if isLeft then "("%char else ")"%char.

(** One iteration of [while outerIndex < 2], with [isLeft = outerIndex]. *)
Definition outer_body (isLeft : bool) (cur : string) : res string :=
  let parenthPosList := positions_from (parenth_of isLeft) 0 cur in
  let parenthCount := List.length parenthPosList in
  inner_loop isLeft parenthCount parenthCount 0 cur parenthPosList.

(** [outerIndex] takes the values 0 (falsy: the pass over [')']) and
    1 (truthy: the pass over ['(']). *)
Definition parseParentheses (currentCumulativeOperation : string) : res string :=
  s1 <- outer_body false currentCumulativeOperation ;;
  outer_body true s1.

(** *** The rewriting the passes amount to *)

Definition head_isnumeric (s : string) : bool :=
  match s with
  | String c _ => isnumeric c
  | "" => false
  end.

(** One pass as a left-to-right rewriting; [pn] tells whether the
    character to the left exists and is numeric. *)
Fixpoint star_pass (isLeft pn : bool) (s : string) : string :=
  match s with
  | "" => ""
  | String c rest =>
      if Ascii.eqb c (parenth_of isLeft) && pn && head_isnumeric rest
      then if isLeft
           then String "*" (String c (star_pass isLeft false rest))
           else String c (String "*" (star_pass isLeft false rest))
      else String c (star_pass isLeft (isnumeric c) rest)
  end.

(** The normaliser in the words of the (amended) design: a ['*'] goes
    directly before every ['('] and directly after every [')'] that has
    a numeric character immediately on both of its sides. *)
Fixpoint normalize_from (pn : bool) (s : string) : string :=
  match s with
  | "" => ""
  | String c rest =>
      let both := pn && head_isnumeric rest in
      if Ascii.eqb c "(" && both
      then String "*" (String c (normalize_from false rest))
      else if Ascii.eqb c ")" && both
      then String c (String "*" (normalize_from false rest))
      else String c (normalize_from (isnumeric c) rest)
  end.

Definition normalize (s : string) : string := normalize_from false s.

(** The inner loop over an explicit list of the positions still to
    visit; [shift] counts the insertions made so far in the pass.  It
    serves the proofs: [inner_loop] is shown to compute it. *)
Fixpoint walk (isLeft : bool) (cur : string) (shift : nat) (todo : list nat)
  : res string :=
  match todo with
  | [] => Ok cur
  | p :: rest =>
      let parenthPos := p + shift in
      found <- no_adjacent_operator cur parenthPos ;;
      if found : bool
      then walk isLeft (insert_star (parenthPos + (if isLeft then 0 else 1)) cur)
                (S shift) rest
      else walk isLeft cur shift rest
  end.

End Normalizer.

(** ** Part III.  The state of [CalcApp] and its methods *)

Module Calc.
Import Str Num Py Normalizer.

(** The data attributes set up by [__init__].  A [StringVar] is
    modelled by the object last passed to its [set]. *)
Record CalcApp : Set := mkCalcApp {
  cumulativeInputDisplayString : value;
  cumulativeOperationDisplayString : value;
  cumulativeNumInputList : list string;
  lastCumulativeNumInputList : list string;
  cumulativeOperationList : list string;
  lastInputWasNum : bool;
  lastOperationWasEval : bool;
  skipAddingLastNumInputToOperation : bool
}.

Definition init : CalcApp :=
  mkCalcApp (PStr "0") (PStr "") [] [] [] false false false.

Definition set_inputDisplay (v : value) (s : CalcApp) : CalcApp :=
  mkCalcApp v (cumulativeOperationDisplayString s) (cumulativeNumInputList s)
    (lastCumulativeNumInputList s) (cumulativeOperationList s)
    (lastInputWasNum s) (lastOperationWasEval s)
    (skipAddingLastNumInputToOperation s).

Definition set_operationDisplay (v : value) (s : CalcApp) : CalcApp :=
  mkCalcApp (cumulativeInputDisplayString s) v (cumulativeNumInputList s)
    (lastCumulativeNumInputList s) (cumulativeOperationList s)
    (lastInputWasNum s) (lastOperationWasEval s)
    (skipAddingLastNumInputToOperation s).

Definition set_numInputList (l : list string) (s : CalcApp) : CalcApp :=
  mkCalcApp (cumulativeInputDisplayString s)
    (cumulativeOperationDisplayString s) l
    (lastCumulativeNumInputList s) (cumulativeOperationList s)
    (lastInputWasNum s) (lastOperationWasEval s)
    (skipAddingLastNumInputToOperation s).

Definition set_lastNumInputList (l : list string) (s : CalcApp) : CalcApp :=
  mkCalcApp (cumulativeInputDisplayString s)
    (cumulativeOperationDisplayString s) (cumulativeNumInputList s)
    l (cumulativeOperationList s)
    (lastInputWasNum s) (lastOperationWasEval s)
    (skipAddingLastNumInputToOperation s).

Definition set_operationList (l : list string) (s : CalcApp) : CalcApp :=
  mkCalcApp (cumulativeInputDisplayString s)
    (cumulativeOperationDisplayString s) (cumulativeNumInputList s)
    (lastCumulativeNumInputList s) l
    (lastInputWasNum s) (lastOperationWasEval s)
    (skipAddingLastNumInputToOperation s).

Definition set_lastInputWasNum (b : bool) (s : CalcApp) : CalcApp :=
  mkCalcApp (cumulativeInputDisplayString s)
    (cumulativeOperationDisplayString s) (cumulativeNumInputList s)
    (lastCumulativeNumInputList s) (cumulativeOperationList s)
    b (lastOperationWasEval s) (skipAddingLastNumInputToOperation s).

Definition set_lastOperationWasEval (b : bool) (s : CalcApp) : CalcApp :=
  mkCalcApp (cumulativeInputDisplayString s)
    (cumulativeOperationDisplayString s) (cumulativeNumInputList s)
    (lastCumulativeNumInputList s) (cumulativeOperationList s)
    (lastInputWasNum s) b (skipAddingLastNumInputToOperation s).

Definition set_skipAdding (b : bool) (s : CalcApp) : CalcApp :=
  mkCalcApp (cumulativeInputDisplayString s)
    (cumulativeOperationDisplayString s) (cumulativeNumInputList s)
    (lastCumulativeNumInputList s) (cumulativeOperationList s)
    (lastInputWasNum s) (lastOperationWasEval s) b.

(** How a method call ends: it returns, an exception leaves it (the
    attributes keep what was assigned before), or it left the modelled
    fragment of the runtime. *)
Inductive completion : Set :=
| Returned (s : CalcApp)
| Raised (e : exn) (s : CalcApp)
| Outside.

(** A runtime call made in state [s] outside any [try]. *)
Definition call {A : Type} (r : res A) (s : CalcApp)
           (k : A -> completion) : completion :=
  match r with
  | Ok a => k a
  | Raise e => Raised e s
  | Unmodelled => Outside
  end.

Definition and_then (c : completion) (k : CalcApp -> completion) : completion :=
  match c with
  | Returned s => k s
  | other => other
  end.

(** Truth value of a [str] and of a [list]. *)
Definition truthy (x : string) : bool := negb (String.eqb x "").
Definition nonempty {A : Type} (l : list A) : bool :=
  match l with
  | [] => false
  | _ => true
  end.

(** [l[-1]]. *)
Definition last_item (l : list string) : res string :=
  match l with
  | [] => Raise IndexError
  | _ => Ok (List.last l "")
  end.

(** [l[0] = x] on a list. *)
Definition assign_first (x : string) (l : list string) : res (list string) :=
  match l with
  | [] => Raise IndexError
  | _ :: rest => Ok (x :: rest)
  end.

Definition clearAll (s : CalcApp) : completion :=
  let s := set_inputDisplay (PInt 0) s in
  let s := set_operationDisplay (PStr "") s in
  let s := set_numInputList [] s in
  Returned (set_operationList [] s).

Definition clearLast (s : CalcApp) : completion :=
  if lastOperationWasEval s && negb (lastInputWasNum s) then Returned s
  else if lastInputWasNum s then
    if (0 <? List.length (cumulativeNumInputList s))%nat then
      let s := set_numInputList (removelast (cumulativeNumInputList s)) s in
      let s :=
        match cumulativeNumInputList s with
        | [x] =>
            if String.eqb x "-"
            then set_inputDisplay (PInt 0) (set_numInputList [] s)
            else s
        | _ => s
        end in
      if (0 <? List.length (cumulativeNumInputList s))%nat
      then Returned (set_inputDisplay
                       (PStr (join "" (cumulativeNumInputList s))) s)
      else Returned (set_inputDisplay (PStr "0") s)
    else Returned s
  else if (List.length (cumulativeOperationList s) =? 0)%nat then Returned s
  else
    let s := set_operationList (removelast (cumulativeOperationList s)) s in
    let s := set_numInputList (lastCumulativeNumInputList s) s in
    let s := set_skipAdding true s in
    Returned (set_operationDisplay
                (PStr (join " " (cumulativeOperationList s))) s).

Definition percentage (s : CalcApp) : completion :=
  if nonempty (cumulativeNumInputList s) then
    call (py_float (join "" (cumulativeNumInputList s))) s
      (fun currentNumInputFloat =>
    let currentPercentFloat := (currentNumInputFloat / 100)%float in
    call (py_str (PFloat currentPercentFloat)) s (fun text =>
    call (assign_first text (cumulativeNumInputList s)) s (fun l =>
    let s := set_numInputList l s in
    Returned (set_inputDisplay
                (PStr (join "" (cumulativeNumInputList s))) s))))
  else Returned s.

Definition invert (s : CalcApp) : completion :=
  let currentNumInput := join "" (cumulativeNumInputList s) in
  match currentNumInput with
  | "" => Returned s
  | String first rest =>
      let isPositive := isnumeric first in
      let flippedNumInput :=
        if isPositive then chars (String "-" currentNumInput) else chars rest in
      let s := set_numInputList flippedNumInput s in
      Returned (set_inputDisplay
                  (PStr (join "" (cumulativeNumInputList s))) s)
  end.

Definition numberPressed (v : value) (s : CalcApp) : completion :=
  call (py_str v) s (fun text =>
  let s := set_numInputList (cumulativeNumInputList s ++ [text]) s in
  let cumulativeNumInputToDisplay := join "" (cumulativeNumInputList s) in
  let formattedDisplayString := replace_pow cumulativeNumInputToDisplay in
  let s := set_inputDisplay (PStr formattedDisplayString) s in
  Returned (set_lastInputWasNum true s)).

(** ['{:.{precision}f}'.format(x)]: a negative precision makes the
    format specification invalid. *)
Definition format_f (precision : Z) (x : float) : res string :=
  if (precision <? 0)%Z then Raise ValueError
  else Ok (format_fixed (Z.to_nat precision) x).

Definition roundToMaxDigits (currentResult : value) : res value :=
  match currentResult with
  | PFloat x =>
      if is_integer x then
        z <- int_of_float x ;; Ok (PInt z)
      else
        text <- py_str (PFloat x) ;;
        let numDigits := String.length text in
        if (9 <? numDigits)%nat then
          z <- int_of_float x ;;
          whole <- py_str (PInt z) ;;
          let allowedDigits := (9 - Z.of_nat (String.length whole))%Z in
          formatted <- format_f allowedDigits x ;;
          Ok (PStr formatted)
        else Ok (PFloat x)
  | _ => Ok currentResult
  end.

(** The first block of [mathPressed]: the last input was also a
    non-evaluating operator.  [value] replaces it unless it is the
    same operator. *)
Definition replace_operator (value : string) (s : CalcApp) : completion :=
  call (last_item (cumulativeOperationList s)) s (fun lastOperation =>
  if String.eqb lastOperation value then Returned s
  else
    and_then (clearLast s) (fun s =>
    let s := set_skipAdding false s in
    let s := set_operationList (cumulativeOperationList s ++ [value]) s in
    let s := set_numInputList [] s in
    let s := set_inputDisplay (PStr "") s in
    Returned (set_operationDisplay
                (PStr (join " " (cumulativeOperationList s))) s))).

(** The statements between the two blocks: the number typed so far is
    appended to the operation list (unless the skip flag is set, which
    is then reset) and [lastInputWasNum] is cleared. *)
Definition commit_input (s : CalcApp) : CalcApp :=
  let currentCumulativeNumInput := join "" (cumulativeNumInputList s) in
  let s :=
    if negb (skipAddingLastNumInputToOperation s)
    then set_operationList
           (cumulativeOperationList s ++ [currentCumulativeNumInput]) s
    else set_skipAdding false s in
  set_lastInputWasNum false s.

(** The block under [if value != '=']. *)
Definition append_operator (value : string) (s : CalcApp) : completion :=
  let s := set_operationList (cumulativeOperationList s ++ [value]) s in
  let s := set_lastNumInputList (cumulativeNumInputList s) s in
  let s := set_numInputList [] s in
  let s := set_lastOperationWasEval false s in
  let s := set_inputDisplay (PStr "") s in
  Returned (set_operationDisplay
              (PStr (join " " (cumulativeOperationList s))) s).

(** The block under [else: # value was '=']: only [SyntaxError] and
    [KeyError] are caught around [eval]. *)
Definition evaluate (s : CalcApp) : completion :=
  let currentCumulativeOperation := join "" (cumulativeOperationList s) in
  call (parseParentheses currentCumulativeOperation) s
    (fun currentCumulativeOperation =>
  match py_eval currentCumulativeOperation with
  | Raise SyntaxError | Raise KeyError =>
      Returned (set_inputDisplay (PStr "ERROR") s)
  | Raise e => Raised e s
  | Unmodelled => Outside
  | Ok currentResult =>
      let s := set_lastOperationWasEval true s in
      let s := set_operationList [] s in
      call (py_str currentResult) s (fun text =>
      let s := set_numInputList [text] s in
      call (roundToMaxDigits currentResult) s (fun shown =>
      let s := set_inputDisplay shown s in
      let formattedDisplayString := replace_pow currentCumulativeOperation in
      Returned (set_operationDisplay (PStr formattedDisplayString) s)))
  end).

Definition mathPressed (value : string) (s : CalcApp) : completion :=
  if negb (lastInputWasNum s) && negb (lastOperationWasEval s)
     && truthy (join "" (cumulativeNumInputList s))
  then replace_operator value s
  else
    let currentCumulativeNumInput := join "" (cumulativeNumInputList s) in
    let s := commit_input s in
    if truthy currentCumulativeNumInput then
      if negb (String.eqb value "=") then append_operator value s
      else evaluate s
    else Returned s.

Definition exponentiate (s : CalcApp) : completion :=
  if nonempty (cumulativeNumInputList s) then
    let s := set_numInputList (cumulativeNumInputList s ++ ["**"]) s in
    let displayString := join "" (cumulativeNumInputList s) in
    let formattedDisplayString := replace_pow displayString in
    Returned (set_inputDisplay (PStr formattedDisplayString) s)
  else Returned s.

Definition square (s : CalcApp) : completion :=
  if nonempty (cumulativeNumInputList s) then
    let cumulativeInputStr := join "" (cumulativeNumInputList s) in
    let s := set_numInputList
               (cumulativeNumInputList s ++ ["*" ++ cumulativeInputStr]) s in
    mathPressed "=" s
  else Returned s.

Section Logarithms.

(** [math.log10] and [math.log] on positive arguments, as the C
    library computes them. *)
Variables libm_log10 libm_log : float -> float.

(** Both raise [ValueError] on an argument that is not positive. *)
Definition math_log (f : float -> float) (x : float) : res float :=
  if PrimFloat.leb x 0%float then Raise ValueError else Ok (f x).

Definition logarithms (base : option Z) (s : CalcApp) : completion :=
  if nonempty (cumulativeNumInputList s) then
    let attempt :=
      currentNumInputFloat <- py_float (join "" (cumulativeNumInputList s)) ;;
      let logFunc :=
        match base with
        | Some 10%Z => libm_log10
        | _ => libm_log
        end in
      y <- math_log logFunc currentNumInputFloat ;;
      roundToMaxDigits (PFloat y) in
    match attempt with
    | Raise SyntaxError | Raise KeyError | Raise ValueError =>
        Returned (set_inputDisplay (PStr "ERROR") s)
    | Raise e => Raised e s
    | Unmodelled => Outside
    | Ok logResult =>
        call (py_str logResult) s (fun text =>
        call (assign_first text (cumulativeNumInputList s)) s (fun l =>
        let s := set_numInputList l s in
        Returned (set_inputDisplay (PStr text) s)))
    end
  else Returned s.

End Logarithms.

(** A sequence of button presses, each handled to its end before the
    next; the run stops at the first call that does not return. *)
Fixpoint presses (l : list (CalcApp -> completion)) (s : CalcApp) : completion :=
  match l with
  | [] => Returned s
  | press :: rest => and_then (press s) (presses rest)
  end.

End Calc.

(** ** Part IV.  The design's vocabulary *)

Module Design.
Import Str Num Py Calc.

(** The characters of the design's token grammar: digits, the decimal
    point, the operator characters of [+ - * / **] and parentheses. *)
Definition grammar_char (c : ascii) : bool :=
  is_digit c || Ascii.eqb c "." || Ascii.eqb c "+" || Ascii.eqb c "-"
  || Ascii.eqb c "*" || Ascii.eqb c "/" || Ascii.eqb c "(" || Ascii.eqb c ")".

(** Pressing the number button of a digit. *)
Definition digit (n : Z) : CalcApp -> completion := numberPressed (PInt n).

(** Pressing an operator button, and the equals button. *)
Definition operator (op : string) : CalcApp -> completion := mathPressed op.
Definition equals : CalcApp -> completion := mathPressed "=".

(** What [math.log10(9.0)] returns: the float nearest to the decimal
    logarithm of 9, which prints as 0.9542425094393249. *)
Definition log10_of_9 : float := 0x1.e8927964fd5fdp-1%float.

End Design.

(** ** Part V.  Numbers typed on the number buttons *)

Module Keys.
Import Str Num Py Calc Design.

(** The value of a digit button. *)
Definition is_digit_value (d : Z) : Prop := (0 <= d <= 9)%Z.

(** The items appended to the number list by the digit buttons [ds], and
    the text they make up. *)
Definition typed (ds : list Z) : list string := map str_of_Z ds.
Definition text (ds : list Z) : string := join "" (typed ds).

(** The natural number written by the digits [ds]. *)
Definition number (ds : list Z) : Z :=
  fold_left (fun acc d => (10 * acc + d)%Z) ds 0%Z.

(** Digits that write a decimal integer literal: at least one digit, and
    no leading zero before other digits. *)
Definition plain (ds : list Z) : Prop :=
  Forall is_digit_value ds
  /\ match ds with
     | [] => False
     | [_] => True
     | d :: _ => d <> 0%Z
     end.

Definition is_parenthesis (c : ascii) : bool :=
  Ascii.eqb c "(" || Ascii.eqb c ")".

(** The operator buttons whose results stay integers, the value each
    passes to [mathPressed], and the operation it stands for. *)
Inductive arith : Set := Plus | Minus | Times.

Definition symbol (o : arith) : string :=
  match o with
  | Plus => "+"
  | Minus => "-"
  | Times => "*"
  end.

Definition apply_arith (o : arith) (a b : Z) : Z :=
  match o with
  | Plus => a + b
  | Minus => a - b
  | Times => a * b
  end%Z.

(** The characters of [s] other than ['*'], in order. *)
Fixpoint without_stars (s : string) : string :=
  match s with
  | "" => ""
  | String c rest =>
      if Ascii.eqb c "*" then without_stars rest
      else String c (without_stars rest)
  end.

(** Some parenthesis of [s] has a numeric character on both sides; [pn]
    tells whether the character before [s] exists and is numeric. *)
Fixpoint adjacent (pn : bool) (s : string) : bool :=
  match s with
  | "" => false
  | String c rest =>
      (is_parenthesis c && pn && Normalizer.head_isnumeric rest)
      || adjacent (isnumeric c) rest
  end.

End Keys.

(** ** Part VI.  Properties *)

Section NormalizerFacts.
Import Str Normalizer.

Lemma positions_from_S (p : ascii) (s : string) (k : nat) :
  positions_from p (S k) s = map S (positions_from p k s).
Proof.
  revert k; induction s as [|c s IH]; intros k; simpl; [reflexivity|].
  destruct (Ascii.eqb c p); simpl; now rewrite IH.
Qed.

Lemma skipn_nth_error {A : Type} (l : list A) (i : nat) (x : A) :
  nth_error l i = Some x -> skipn i l = x :: skipn (S i) l.
Proof.
  revert i; induction l as [|a l IH]; intros [|i] H; simpl in *;
    try discriminate.
  - now inversion H.
  - now apply IH.
Qed.

Lemma skipn_map {A B : Type} (f : A -> B) (l : list A) (i : nat) :
  skipn i (map f l) = map f (skipn i l).
Proof.
  revert i; induction l as [|a l IH]; intros [|i]; simpl; auto.
Qed.

Lemma walk_map_S (isLeft : bool) (l : list nat) :
  forall cur d, walk isLeft cur d (map S l) = walk isLeft cur (S d) l.
Proof.
  induction l as [|p l IH]; intros cur d; simpl; [reflexivity|].
  replace (p + S d) with (S (p + d)) by lia.
  destruct (no_adjacent_operator cur (S (p + d))) as [[|]| |]; simpl; auto.
Qed.

(** The index-driven loop visits exactly the remaining positions. *)
Lemma inner_loop_walk (isLeft : bool) (n : nat) :
  forall todo i cur l,
    List.length l = n -> List.length l <= i + todo ->
    inner_loop isLeft n todo i cur l = walk isLeft cur 0 (skipn i l).
Proof.
  induction todo as [|todo IH]; intros i cur l Hn Hle; simpl.
  - rewrite skipn_all2 by lia. reflexivity.
  - destruct (nth_error l i) as [p|] eqn:Hp.
    + rewrite (skipn_nth_error _ _ _ Hp); simpl.
      rewrite Nat.add_0_r.
      destruct (no_adjacent_operator cur p) as [[|]| |]; simpl; auto.
      * assert (Hi : i < n).
        { rewrite <- Hn. apply nth_error_Some. congruence. }
        replace (i =? n)%nat with false by (symmetry; apply Nat.eqb_neq; lia).
        simpl. rewrite IH; rewrite ?length_map; try lia.
        rewrite skipn_map. rewrite walk_map_S. reflexivity.
      * apply IH; lia.
    + apply nth_error_None in Hp. rewrite skipn_all2 by lia. reflexivity.
Qed.

(** A character in front shifts every position by one and changes
    nothing else, as long as no position is the first one. *)
Lemma no_adjacent_operator_cons (a : ascii) (suf : string) (q : nat) :
  1 <= q ->
  no_adjacent_operator (String a suf) (S q) = no_adjacent_operator suf q.
Proof.
  intros Hq. destruct q as [|q]; [lia|].
  unfold no_adjacent_operator, index. cbn [Nat.ltb Nat.leb Nat.sub String.get].
  rewrite Nat.sub_0_r.
  destruct (String.get q suf) as [l|]; cbn [bind]; [|reflexivity].
  destruct (isnumeric l); [|reflexivity].
  cbn [String.length].
  replace (Z.of_nat (S (S q)) =? Z.of_nat (S (String.length suf)) - 1)%Z
    with (Z.of_nat (S q) =? Z.of_nat (String.length suf) - 1)%Z.
  2:{ destruct (Z.eqb_spec (Z.of_nat (S q)) (Z.of_nat (String.length suf) - 1));
      destruct (Z.eqb_spec (Z.of_nat (S (S q)))
                           (Z.of_nat (S (String.length suf)) - 1)); auto; lia. }
  reflexivity.
Qed.

Lemma insert_star_cons (a : ascii) (suf : string) (k : nat) :
  insert_star (S k) (String a suf) = String a (insert_star k suf).
Proof. reflexivity. Qed.

Lemma insert_star_0 (s : string) : insert_star 0 s = String "*" s.
Proof. reflexivity. Qed.

Lemma walk_cons (isLeft : bool) (a : ascii) (qs : list nat) :
  forall suf d,
    Forall (fun p => 1 <= p + d) qs ->
    walk isLeft (String a suf) (S d) qs
    = (x <- walk isLeft suf d qs ;; Ok (String a x)).
Proof.
  induction qs as [|p qs IH]; intros suf d Hall; cbn [walk bind];
    [reflexivity|].
  inversion Hall as [|? ? Hp Hqs]; subst.
  replace (p + S d) with (S (p + d)) by lia.
  rewrite no_adjacent_operator_cons by exact Hp.
  destruct (no_adjacent_operator suf (p + d)) as [[|]| |]; cbn [bind];
    try reflexivity.
  - cbn [Nat.add]. rewrite insert_star_cons. apply IH.
    eapply Forall_impl; [|exact Hqs]. cbn beta. intros; lia.
  - apply IH. exact Hqs.
Qed.

Lemma positions_from_cons (p c : ascii) (rest : string) :
  positions_from p 0 (String c rest)
  = ((if Ascii.eqb c p then [0] else []) ++ map S (positions_from p 0 rest))%list.
Proof.
  cbn [positions_from]. rewrite positions_from_S.
  destruct (Ascii.eqb c p); reflexivity.
Qed.

Lemma Forall_ge1 (d : nat) (l : list nat) :
  1 <= d -> Forall (fun p => 1 <= p + d) l.
Proof. intros Hd. apply Forall_forall. intros; lia. Qed.

Lemma isnumeric_parenth (isLeft : bool) : isnumeric (parenth_of isLeft) = false.
Proof. destruct isLeft; reflexivity. Qed.

(** The pass, started behind a first character [prev], performs the
    rewriting [star_pass]. *)
Lemma walk_star_pass (isLeft : bool) (s : string) :
  forall prev,
    walk isLeft (String prev s) 1 (positions_from (parenth_of isLeft) 0 s)
    = Ok (String prev (star_pass isLeft (isnumeric prev) s)).
Proof.
  induction s as [|c rest IH]; intros prev; [reflexivity|].
  rewrite positions_from_cons.
  assert (Hskip :
    walk isLeft (String prev (String c rest)) 1
         (map S (positions_from (parenth_of isLeft) 0 rest))
    = Ok (String prev (String c (star_pass isLeft (isnumeric c) rest)))).
  { rewrite walk_map_S, walk_cons by (apply Forall_ge1; lia).
    rewrite IH. reflexivity. }
  cbn [star_pass].
  destruct (Ascii.eqb_spec c (parenth_of isLeft)) as [->|Hc];
    cbn [app andb]; [|exact Hskip].
  rewrite isnumeric_parenth in Hskip. rewrite isnumeric_parenth.
  cbn [walk]. unfold no_adjacent_operator at 1, index.
  cbn [Nat.ltb Nat.leb Nat.add Nat.sub String.get bind].
  destruct (isnumeric prev); cbn [bind andb]; [|exact Hskip].
  destruct rest as [|c' rest'].
  - cbn [String.length Z.of_nat Z.eqb negb head_isnumeric]. cbn.
    reflexivity.
  - cbn [String.length String.get head_isnumeric].
    replace (Z.of_nat 1 =? Z.of_nat (S (S (S (String.length rest')))) - 1)%Z
      with false by (symmetry; apply Z.eqb_neq; lia).
    cbn [negb bind].
    destruct (isnumeric c') eqn:Hc'; [|exact Hskip].
    rewrite walk_map_S.
    destruct isLeft; cbn [Nat.add].
    + rewrite insert_star_cons, insert_star_0.
      rewrite walk_cons by (apply Forall_ge1; lia).
      rewrite walk_cons by (apply Forall_ge1; lia).
      rewrite (IH (parenth_of true)), isnumeric_parenth. reflexivity.
    + rewrite !insert_star_cons, insert_star_0.
      rewrite walk_cons by (apply Forall_ge1; lia).
      rewrite walk_cons by (apply Forall_ge1; lia).
      rewrite (IH "*"%char). reflexivity.
Qed.

(** Each pass of the source computes [star_pass] and raises nothing. *)
Lemma outer_body_star_pass (isLeft : bool) (s : string) :
  outer_body isLeft s = Ok (star_pass isLeft false s).
Proof.
  unfold outer_body.
  rewrite inner_loop_walk by (auto; lia). cbn [skipn].
  destruct s as [|c rest]; [reflexivity|].
  rewrite positions_from_cons. cbn [star_pass].
  rewrite andb_false_r. cbn [andb].
  destruct (Ascii.eqb c (parenth_of isLeft)); cbn [app].
  - cbn [walk]. unfold no_adjacent_operator at 1. cbn [Nat.add Nat.ltb Nat.leb bind].
    rewrite walk_map_S. apply walk_star_pass.
  - rewrite walk_map_S. apply walk_star_pass.
Qed.

Lemma head_isnumeric_star_pass_false (pn : bool) (s : string) :
  head_isnumeric (star_pass false pn s) = head_isnumeric s.
Proof.
  destruct s as [|c rest]; [reflexivity|]. cbn [star_pass].
  destruct (Ascii.eqb c (parenth_of false) && pn && head_isnumeric rest);
    reflexivity.
Qed.

(** The two passes together are the one-pass normaliser. *)
Lemma star_pass_twice (s : string) :
  forall pn, star_pass true pn (star_pass false pn s) = normalize_from pn s.
Proof.
  induction s as [|c rest IH]; intros pn; [reflexivity|].
  cbn [star_pass normalize_from parenth_of].
  destruct (Ascii.eqb_spec c ")") as [->|Hr].
  - cbn [Ascii.eqb andb].
    change (Ascii.eqb ")" "(") with false. cbn [andb].
    destruct (pn && head_isnumeric rest); cbn [star_pass parenth_of].
    + change (Ascii.eqb ")" "(") with false.
      change (Ascii.eqb "*" "(") with false. cbn [andb].
      change (isnumeric ")") with false. change (isnumeric "*") with false.
      now rewrite IH.
    + change (Ascii.eqb ")" "(") with false. cbn [andb].
      change (isnumeric ")") with false. now rewrite IH.
  - cbn [andb star_pass parenth_of].
    rewrite head_isnumeric_star_pass_false.
    destruct (Ascii.eqb c "(" && pn && head_isnumeric rest) eqn:Hl.
    + apply andb_prop in Hl as [Hl Hh]. apply andb_prop in Hl as [Hl Hp].
      rewrite Hl, Hp, Hh. cbn [andb].
      apply Ascii.eqb_eq in Hl. subst c.
      change (isnumeric "(") with false. now rewrite IH.
    + rewrite <- andb_assoc in Hl. rewrite Hl. now rewrite IH.
Qed.

(** [parseParentheses] never raises and computes [normalize]. *)
Lemma parseParentheses_normalize (s : string) :
  parseParentheses s = Ok (normalize s).
Proof.
  unfold parseParentheses, normalize.
  rewrite outer_body_star_pass. cbn [bind].
  rewrite outer_body_star_pass. now rewrite star_pass_twice.
Qed.

Lemma head_isnumeric_normalize_from (pn : bool) (s : string) :
  head_isnumeric (normalize_from pn s) = head_isnumeric s.
Proof.
  destruct s as [|c rest]; [reflexivity|]. cbn [normalize_from].
  destruct (Ascii.eqb_spec c "(") as [->|Hl]; cbn [andb].
  - destruct (pn && head_isnumeric rest); reflexivity.
  - destruct (Ascii.eqb c ")" && (pn && head_isnumeric rest)); reflexivity.
Qed.

Lemma normalize_from_idempotent (s : string) :
  forall pn, normalize_from pn (normalize_from pn s) = normalize_from pn s.
Proof.
  induction s as [|c rest IH]; intros pn; [reflexivity|].
  cbn [normalize_from].
  destruct (Ascii.eqb c "(" && (pn && head_isnumeric rest)) eqn:Hl.
  - apply andb_prop in Hl as [Hl _]. apply Ascii.eqb_eq in Hl. subst c.
    cbn [normalize_from].
    change (Ascii.eqb "*" "(") with false.
    change (Ascii.eqb "*" ")") with false.
    change (isnumeric "*") with false. cbn [andb].
    change (Ascii.eqb "(" ")") with false.
    change (isnumeric "(") with false. cbn [andb].
    now rewrite IH.
  - destruct (Ascii.eqb c ")" && (pn && head_isnumeric rest)) eqn:Hr.
    + apply andb_prop in Hr as [Hr _]. apply Ascii.eqb_eq in Hr. subst c.
      cbn [normalize_from head_isnumeric].
      change (Ascii.eqb ")" "(") with false.
      change (Ascii.eqb "*" "(") with false.
      change (Ascii.eqb "*" ")") with false.
      change (isnumeric "*") with false.
      change (isnumeric ")") with false.
      rewrite !andb_false_r. cbn [andb].
      now rewrite IH.
    + cbn [normalize_from]. rewrite head_isnumeric_normalize_from.
      rewrite Hl, Hr. now rewrite IH.
Qed.

End NormalizerFacts.




Import Str Num Py Normalizer Calc Design.

(** *** Facts about the fixed-point rendering *)

Lemma length_append (s t : string) :
  String.length (s ++ t) = String.length s + String.length t.
Proof. induction s as [|c s IH]; cbn; [reflexivity | now rewrite IH]. Qed.

Lemma length_zeros (n : nat) : String.length (zeros n) = n.
Proof. induction n as [|n IH]; cbn; [reflexivity | now rewrite IH]. Qed.

Lemma length_substring (s : string) :
  forall n m, n + m <= String.length s ->
              String.length (String.substring n m s) = m.
Proof.
  induction s as [|c s IH]; intros [|n] [|m] H; cbn in *;
    try reflexivity; try lia.
  - rewrite IH by lia. reflexivity.
  - apply IH. lia.
  - apply IH. lia.
Qed.

(** A float that has an integer part is rendered to [p] decimals as an
    optional sign, at least one digit and, when [p] is not 0, a point
    followed by exactly [p] characters. *)
Lemma format_fixed_fraction_digits (p : nat) (x : float) (z : Z) :
  int_of_float x = Ok z ->
  exists sign whole fraction,
    format_fixed p x
    = sign ++ whole ++ (if (p =? 0)%nat then "" else String "." fraction)
    /\ (sign = "" \/ sign = "-")
    /\ 1 <= String.length whole
    /\ String.length fraction = p.
Proof.
  unfold int_of_float, format_fixed. intros Hz.
  destruct (Prim2SF x) as [sg|sg| |sg m e]; try discriminate Hz.
  - set (ds := String.append _ _).
    assert (Hlen : S p <= String.length ds).
    { unfold ds. rewrite length_append, length_zeros. lia. }
    exists (if sg then "-" else ""), (substring_to (String.length ds - p) ds),
      (substring_from (String.length ds - p) ds).
    split; [destruct (p =? 0)%nat; reflexivity|].
    split; [destruct sg; auto|].
    unfold substring_to, substring_from.
    rewrite !length_substring by lia. lia.
  - set (nd := if (0 <=? e)%Z then (sg, (Z.pos m * 2 ^ e)%Z, 1%Z)
               else (sg, Z.pos m, (2 ^ (- e))%Z)).
    assert (Hsg : fst (fst nd) = sg) by (unfold nd; destruct (0 <=? e)%Z; reflexivity).
    destruct nd as [[sg' num] den]. cbn in Hsg. subst sg'.
    set (ds := String.append _ _).
    assert (Hlen : S p <= String.length ds).
    { unfold ds. rewrite length_append, length_zeros. lia. }
    exists (if sg then "-" else ""), (substring_to (String.length ds - p) ds),
      (substring_from (String.length ds - p) ds).
    split; [destruct (p =? 0)%nat; reflexivity|].
    split; [destruct sg; auto|].
    unfold substring_to, substring_from.
    rewrite !length_substring by lia. lia.
Qed.

(** *** Facts about [mathPressed] shared by the claims *)

(** Outside the operator-replacement block, an equals press commits the
    number typed so far and evaluates. *)
Lemma mathPressed_equals (s : CalcApp) :
  lastInputWasNum s || lastOperationWasEval s = true ->
  truthy (join "" (cumulativeNumInputList s)) = true ->
  mathPressed "=" s = evaluate (commit_input s).
Proof.
  intros Hflags Hnum. unfold mathPressed. rewrite Hnum.
  destruct (lastInputWasNum s), (lastOperationWasEval s);
    try discriminate Hflags; reflexivity.
Qed.

(** The expression handed to [eval] by [evaluate]. *)
Lemma evaluate_expression (s : CalcApp) :
  evaluate s
  = (let expression := normalize (join "" (cumulativeOperationList s)) in
     match py_eval expression with
     | Raise SyntaxError | Raise KeyError =>
         Returned (set_inputDisplay (PStr "ERROR") s)
     | Raise e => Raised e s
     | Unmodelled => Outside
     | Ok currentResult =>
         let s := set_operationList [] (set_lastOperationWasEval true s) in
         call (py_str currentResult) s (fun text =>
         let s := set_numInputList [text] s in
         call (roundToMaxDigits currentResult) s (fun shown =>
         Returned (set_operationDisplay (PStr (replace_pow expression))
                     (set_inputDisplay shown s))))
     end).
Proof.
  unfold evaluate. rewrite parseParentheses_normalize. reflexivity.
Qed.

(** An operator press while the number list is empty and the skip flag is
    clear: the replacement block is not entered, and the empty string
    is appended to the operation list before the test for a number. *)
Lemma mathPressed_without_number (value : string) (s : CalcApp) :
  cumulativeNumInputList s = [] ->
  skipAddingLastNumInputToOperation s = false ->
  mathPressed value s
  = Returned (set_lastInputWasNum false
                (set_operationList (cumulativeOperationList s ++ [""]) s)).
Proof.
  intros Hnum Hskip. unfold mathPressed, commit_input.
  rewrite Hnum, Hskip. cbn [join truthy String.eqb negb andb].
  rewrite !andb_false_r. reflexivity.
Qed.

(** An operator press with a number typed, outside the replacement
    block: the number and the operator are committed. *)
Lemma mathPressed_operator (value : string) (s : CalcApp) :
  lastInputWasNum s || lastOperationWasEval s = true ->
  truthy (join "" (cumulativeNumInputList s)) = true ->
  String.eqb value "=" = false ->
  mathPressed value s = append_operator value (commit_input s).
Proof.
  intros Hflags Hnum Hop. unfold mathPressed. rewrite Hnum, Hop.
  destruct (lastInputWasNum s), (lastOperationWasEval s);
    try discriminate Hflags; reflexivity.
Qed.

(** *** The claims *)

(** C1, as amended.  The evaluation step hands its string to the
    language's own expression evaluator.  A string that evaluator cannot
    parse (it raises [SyntaxError]; [KeyError] is caught alike) is
    rejected: the input display becomes ["ERROR"] and no result is stored.
    A character outside the arithmetic grammar is not rejected as such:
    the committed expression ["7%4"] is evaluated and 3 is displayed. *)
Theorem C1_rejects_only_what_eval_cannot_parse :
  (forall (s : CalcApp) (e : exn),
      lastInputWasNum s || lastOperationWasEval s = true ->
      truthy (join "" (cumulativeNumInputList s)) = true ->
      py_eval (normalize (join "" (cumulativeOperationList (commit_input s))))
      = Raise e ->
      e = SyntaxError \/ e = KeyError ->
      mathPressed "=" s
      = Returned (set_inputDisplay (PStr "ERROR") (commit_input s)))
  /\ existsb_string (fun c => negb (grammar_char c)) "7%4" = true
  /\ presses [digit 7; operator "%"; digit 4; equals] init
     = Returned (mkCalcApp (PInt 3) (PStr "7%4") ["3"] ["7"] [] false true false).
Proof.
  split; [|split; vm_compute; reflexivity].
  intros s e Hflags Hnum Heval He.
  rewrite (mathPressed_equals s Hflags Hnum), evaluate_expression.
  cbv zeta. rewrite Heval. destruct He; subst e; reflexivity.
Qed.

(** A state in which ["1+)"] is about to be evaluated. *)
Lemma C1_rejects_only_what_eval_cannot_parse_witness :
  mathPressed "=" (mkCalcApp (PStr ")") (PStr "1 +") [")"] ["1"] ["1"; "+"]
                             true false false)
  = Returned (mkCalcApp (PStr "ERROR") (PStr "1 +") [")"] ["1"]
                        ["1"; "+"; ")"] false false false).
Proof.
  apply (proj1 C1_rejects_only_what_eval_cannot_parse
               (mkCalcApp (PStr ")") (PStr "1 +") [")"] ["1"] ["1"; "+"]
                          true false false) SyntaxError).
  - reflexivity.
  - reflexivity.
  - vm_compute. reflexivity.
  - left. reflexivity.
Defined.

(** C1, as stated, fails: ["7%4"] holds a character outside the token
    grammar, and evaluation computes 3 from it instead of rejecting it. *)
Lemma C1_counterexample :
  existsb_string (fun c => negb (grammar_char c)) "7%4" = true
  /\ py_eval "7%4" = Ok (PInt 3)
  /\ exists s,
       presses [digit 7; operator "%"; digit 4; equals] init = Returned s
       /\ cumulativeInputDisplayString s = PInt 3.
Proof.
  split; [reflexivity|]. split; [vm_compute; reflexivity|].
  eexists. split; [vm_compute; reflexivity | reflexivity].
Qed.

(** C2: the code at the failing input.  An exception of [eval] other
    than [SyntaxError] and [KeyError] is not caught: it leaves
    [mathPressed] with the number already appended to the operation list
    and the input display untouched.  After 5, [/], 0 the equals press
    ends with [ZeroDivisionError]: the input display still shows the
    typed ["0"], not ["ERROR"], and the operation list is
    [["5"; "/"; "0"]]. *)
Theorem C2_division_by_zero_is_not_caught :
  (forall (s : CalcApp),
      lastInputWasNum s || lastOperationWasEval s = true ->
      truthy (join "" (cumulativeNumInputList s)) = true ->
      py_eval (normalize (join "" (cumulativeOperationList (commit_input s))))
      = Raise ZeroDivisionError ->
      mathPressed "=" s = Raised ZeroDivisionError (commit_input s))
  /\ presses [digit 5; operator "/"; digit 0] init
     = Returned (mkCalcApp (PStr "0") (PStr "5 /") ["0"] ["5"] ["5"; "/"]
                           true false false)
  /\ presses [digit 5; operator "/"; digit 0; equals] init
     = Raised ZeroDivisionError
         (mkCalcApp (PStr "0") (PStr "5 /") ["0"] ["5"] ["5"; "/"; "0"]
                    false false false).
Proof.
  split; [|split; vm_compute; reflexivity].
  intros s Hflags Hnum Heval.
  rewrite (mathPressed_equals s Hflags Hnum), evaluate_expression.
  cbv zeta. rewrite Heval. reflexivity.
Qed.

(** The state reached by 5, [/], 0. *)
Lemma C2_division_by_zero_is_not_caught_witness :
  mathPressed "=" (mkCalcApp (PStr "0") (PStr "5 /") ["0"] ["5"] ["5"; "/"]
                             true false false)
  = Raised ZeroDivisionError
      (mkCalcApp (PStr "0") (PStr "5 /") ["0"] ["5"] ["5"; "/"; "0"]
                 false false false).
Proof.
  apply (proj1 C2_division_by_zero_is_not_caught
               (mkCalcApp (PStr "0") (PStr "5 /") ["0"] ["5"] ["5"; "/"]
                          true false false)).
  - reflexivity.
  - reflexivity.
  - vm_compute. reflexivity.
Defined.

(** C3: the code at the failing input.  Whenever an operator has just
    been committed, a further operator press (the same operator or
    another one) does not reach the replacement block, because the
    commit emptied the number list: the press appends the empty string
    to the operation list and leaves the committed operator in place.
    After 1, 2, [+] both a second [+] and a [-] give
    [["12"; "+"; ""]]. *)
Theorem C3_second_operator_appends_empty_token :
  (forall (s : CalcApp) (first second : string),
      lastInputWasNum s || lastOperationWasEval s = true ->
      truthy (join "" (cumulativeNumInputList s)) = true ->
      String.eqb first "=" = false ->
      exists s1,
        mathPressed first s = Returned s1
        /\ List.last (cumulativeOperationList s1) "" = first
        /\ mathPressed second s1
           = Returned (set_operationList
                         (cumulativeOperationList s1 ++ [""]) s1))
  /\ presses [digit 1; digit 2; operator "+"] init
     = Returned (mkCalcApp (PStr "") (PStr "12 +") [] ["1"; "2"] ["12"; "+"]
                           false false false)
  /\ presses [digit 1; digit 2; operator "+"; operator "+"] init
     = Returned (mkCalcApp (PStr "") (PStr "12 +") [] ["1"; "2"]
                           ["12"; "+"; ""] false false false)
  /\ presses [digit 1; digit 2; operator "+"; operator "-"] init
     = Returned (mkCalcApp (PStr "") (PStr "12 +") [] ["1"; "2"]
                           ["12"; "+"; ""] false false false).
Proof.
  split; [|repeat split; vm_compute; reflexivity].
  intros s first second Hflags Hnum Hop.
  rewrite (mathPressed_operator first s Hflags Hnum Hop).
  unfold append_operator. eexists. split; [reflexivity|].
  split.
  - cbn. apply last_last.
  - rewrite mathPressed_without_number.
    + reflexivity.
    + reflexivity.
    + destruct s as [i o n l ops f1 f2 skip]. destruct skip; reflexivity.
Qed.

(** The state reached by 1, 2, with [+] pressed and then [-]. *)
Lemma C3_second_operator_appends_empty_token_witness :
  exists s1,
    mathPressed "+" (mkCalcApp (PStr "12") (PStr "") ["1"; "2"] [] []
                               true false false) = Returned s1
    /\ List.last (cumulativeOperationList s1) "" = "+"
    /\ mathPressed "-" s1
       = Returned (set_operationList (cumulativeOperationList s1 ++ [""]) s1).
Proof.
  apply (proj1 C3_second_operator_appends_empty_token
               (mkCalcApp (PStr "12") (PStr "") ["1"; "2"] [] []
                          true false false) "+" "-").
  - reflexivity.
  - reflexivity.
  - reflexivity.
Defined.

(** C4, as amended.  [parseParentheses] never fails and inserts ['*']
    directly before every ['('] and directly after every [')'] that has
    a numeric character immediately on both its left and its right:
    ["2(3)"] becomes ["2*(3)"], which evaluates to 6, and ["2(3)4"]
    becomes ["2*(3)*4"]; ["(3)(4)"] is left as it is, and evaluating it
    fails with [TypeError]. *)
Theorem C4_star_between_numeric_neighbours :
  (forall s, parseParentheses s = Ok (normalize s))
  /\ parseParentheses "2(3)" = Ok "2*(3)"
  /\ py_eval "2*(3)" = Ok (PInt 6)
  /\ parseParentheses "2(3)4" = Ok "2*(3)*4"
  /\ parseParentheses "(3)(4)" = Ok "(3)(4)"
  /\ py_eval "(3)(4)" = Raise TypeError.
Proof.
  split; [exact parseParentheses_normalize|].
  repeat split; vm_compute; reflexivity.
Qed.

(** C4, as stated, fails: ["(3)(4)"] is not rewritten to ["(3)*(4)"],
    and the ['('] of ["2((3))"], which has the numeric ['2'] immediately
    to its left, gets no ['*'] in front of it. *)
Lemma C4_counterexample :
  parseParentheses "(3)(4)" = Ok "(3)(4)"
  /\ "(3)(4)" <> "(3)*(4)"
  /\ Str.index "2((3))" 0 = Ok "2"%char
  /\ Str.index "2((3))" 1 = Ok "("%char
  /\ parseParentheses "2((3))" = Ok "2((3))".
Proof.
  split; [vm_compute; reflexivity|].
  split; [discriminate|].
  repeat split; vm_compute; reflexivity.
Qed.

(** C5.  The normaliser is idempotent: on every string it returns a
    result, and run again on that result it returns it unchanged. *)
Theorem C5_parseParentheses_idempotent :
  forall x : string,
    (y <- parseParentheses x ;; parseParentheses y) = parseParentheses x
    /\ exists y, parseParentheses x = Ok y /\ parseParentheses y = Ok y.
Proof.
  intros x.
  assert (Hfix : parseParentheses (normalize x) = Ok (normalize x)).
  { rewrite parseParentheses_normalize. unfold normalize.
    now rewrite normalize_from_idempotent. }
  rewrite parseParentheses_normalize. cbn [bind].
  split; [exact Hfix|].
  exists (normalize x). split; [reflexivity | exact Hfix].
Qed.

(** C6: the code at the failing input.  With an empty number list, an
    empty operation list and the skip flag clear, an operator press is
    not ignored: the operation list becomes [[""]].  In the initial
    state this gives a stray token that is visible later: after a
    backspace, 5 [+] 3 [=] evaluates ["+3"] and displays 3. *)
Theorem C6_operator_on_empty_input_appends_token :
  (forall (s : CalcApp) (value : string),
      cumulativeNumInputList s = [] ->
      cumulativeOperationList s = [] ->
      skipAddingLastNumInputToOperation s = false ->
      exists s1,
        mathPressed value s = Returned s1
        /\ cumulativeOperationList s1 = [""])
  /\ mathPressed "+" init
     = Returned (mkCalcApp (PStr "0") (PStr "") [] [] [""] false false false)
  /\ presses [operator "+"; clearLast; digit 5; operator "+"; digit 3; equals]
             init
     = Returned (mkCalcApp (PInt 3) (PStr "+3") ["3"] ["5"] []
                           false true false).
Proof.
  split; [|split; vm_compute; reflexivity].
  intros s value Hnum Hops Hskip.
  rewrite (mathPressed_without_number value s Hnum Hskip).
  eexists. split; [reflexivity|]. cbn. rewrite Hops. reflexivity.
Qed.

(** The initial state. *)
Lemma C6_operator_on_empty_input_appends_token_witness :
  exists s1,
    mathPressed "+" init = Returned s1 /\ cumulativeOperationList s1 = [""].
Proof.
  apply (proj1 C6_operator_on_empty_input_appends_token init "+");
    reflexivity.
Defined.

(** C7, as amended.  On a successful equals evaluation the operation
    list is cleared, the number list holds the plain [str] of the result
    (not its formatted form), the input display shows the formatted
    result and the operation display shows the normalised expression
    with [^] for [**], joined without blanks; after 1, 2, [+], 8, [=]
    the input display is 20 and the operation display is ["12+8"]. *)
Theorem C7_successful_equals :
  (forall (s : CalcApp) (v : value) (text : string) (shown : value),
      lastInputWasNum s || lastOperationWasEval s = true ->
      truthy (join "" (cumulativeNumInputList s)) = true ->
      py_eval (normalize (join "" (cumulativeOperationList (commit_input s))))
      = Ok v ->
      py_str v = Ok text ->
      roundToMaxDigits v = Ok shown ->
      mathPressed "=" s
      = Returned
          (mkCalcApp shown
             (PStr (replace_pow
                      (normalize
                         (join "" (cumulativeOperationList (commit_input s))))))
             [text] (lastCumulativeNumInputList s) [] false true false))
  /\ presses [digit 1; digit 2; operator "+"; digit 8; equals] init
     = Returned (mkCalcApp (PInt 20) (PStr "12+8") ["20"] ["1"; "2"] []
                           false true false).
Proof.
  split; [|vm_compute; reflexivity].
  intros s v text shown Hflags Hnum Heval Hstr Hround.
  rewrite (mathPressed_equals s Hflags Hnum), evaluate_expression.
  cbv zeta. rewrite Heval. cbn [call]. rewrite Hstr. cbn [call].
  rewrite Hround. cbn [call].
  destruct s as [i o n l ops f1 f2 skip]. destruct skip; reflexivity.
Qed.

(** The state reached by 1, [/], 3, about to be evaluated. *)
Lemma C7_successful_equals_witness :
  mathPressed "=" (mkCalcApp (PStr "3") (PStr "1 /") ["3"] ["1"] ["1"; "/"]
                             true false false)
  = Returned (mkCalcApp (PStr "0.33333333") (PStr "1/3")
                        ["0.3333333333333333"] ["1"] [] false true false).
Proof.
  apply (proj1 C7_successful_equals
               (mkCalcApp (PStr "3") (PStr "1 /") ["3"] ["1"] ["1"; "/"]
                          true false false)
               (PFloat (1 / 3)%float)).
  - reflexivity.
  - reflexivity.
  - vm_compute. reflexivity.
  - vm_compute. reflexivity.
  - vm_compute. reflexivity.
Defined.

(** C7, as stated, fails: after 1, 2, [+], 8, [=] the operation display
    is ["12+8"], not ["12 + 8"]; and after 1, [/], 3, [=] the number
    list holds ["0.3333333333333333"] while the display shows the
    formatted ["0.33333333"]. *)
Lemma C7_counterexample :
  (exists s,
      presses [digit 1; digit 2; operator "+"; digit 8; equals] init = Returned s
      /\ cumulativeOperationDisplayString s = PStr "12+8"
      /\ cumulativeOperationDisplayString s <> PStr "12 + 8")
  /\ (exists s,
         presses [digit 1; operator "/"; digit 3; equals] init = Returned s
         /\ cumulativeInputDisplayString s = PStr "0.33333333"
         /\ cumulativeNumInputList s = ["0.3333333333333333"]).
Proof.
  split; eexists; (split; [vm_compute; reflexivity|]); cbn.
  - split; [reflexivity | discriminate].
  - split; reflexivity.
Qed.

(** C8: the code at the failing input.  The percentage operation
    overwrites only the first item of the number list with the text of
    the quotient and keeps the other items.  After 5, 5 the fragment
    becomes [["0.55"; "5"]], that is ["0.555"], whose value is not
    55 / 100.  With 5, 0 the fragment becomes ["0.50"]: the leftover item
    happens to be a trailing zero. *)
Theorem C8_percentage_overwrites_first_item_only :
  (forall (s : CalcApp) (first : string) (others : list string) (x : float),
      cumulativeNumInputList s = first :: others ->
      py_float (join "" (first :: others)) = Ok x ->
      percentage s
      = Returned
          (set_inputDisplay
             (PStr (join "" (float_repr (x / 100) :: others)))
             (set_numInputList (float_repr (x / 100) :: others) s)))
  /\ presses [digit 5; digit 5; percentage] init
     = Returned (mkCalcApp (PStr "0.555") (PStr "") ["0.55"; "5"] [] []
                           true false false)
  /\ py_float "55" = Ok 55%float
  /\ float_repr (55 / 100)%float = "0.55"
  /\ (exists x, py_float "0.555" = Ok x
                /\ PrimFloat.eqb x (55 / 100)%float = false)
  /\ presses [digit 5; digit 0; percentage] init
     = Returned (mkCalcApp (PStr "0.50") (PStr "") ["0.5"; "0"] [] []
                           true false false).
Proof.
  split.
  { intros s first others x Hnum Hfloat. unfold percentage.
    rewrite Hnum. cbn [nonempty]. rewrite Hfloat. reflexivity. }
  split; [vm_compute; reflexivity|].
  split; [vm_compute; reflexivity|].
  split; [vm_compute; reflexivity|].
  split; [|vm_compute; reflexivity].
  eexists. split; vm_compute; reflexivity.
Qed.

(** The state reached by 5, 5. *)
Lemma C8_percentage_overwrites_first_item_only_witness :
  percentage (mkCalcApp (PStr "55") (PStr "") ["5"; "5"] [] []
                        true false false)
  = Returned (mkCalcApp (PStr "0.555") (PStr "") ["0.55"; "5"] [] []
                        true false false).
Proof.
  rewrite (proj1 C8_percentage_overwrites_first_item_only
                 (mkCalcApp (PStr "55") (PStr "") ["5"; "5"] [] []
                            true false false) "5" ["5"] 55%float).
  - vm_compute. reflexivity.
  - reflexivity.
  - vm_compute. reflexivity.
Defined.

(** C9, as amended.  The formatter turns a float without fractional part
    into an [int] and leaves a float whose [str] has at most 9 characters
    as it is.  A longer one is rendered with 9 minus the length of the
    [str] of its integer part fractional digits, whenever that integer
    part has at most 9 characters (the rendering has exactly that many
    characters after its point).  The integer part is the value
    truncated toward zero: it prints as ["0"], without sign, for
    -0.123456789012, which gets 8 fractional digits, and as ["-12"] for
    -12.3456789012, which gets 6.  An [int] passes through.
    Typing 9 and taking the base-10 logarithm displays ["0.95424251"]. *)
Theorem C9_formatter_rule :
  (forall x, is_integer x = true ->
      exists z, int_of_float x = Ok z
                /\ roundToMaxDigits (PFloat x) = Ok (PInt z))
  /\ (forall x, is_integer x = false ->
        (String.length (float_repr x) <= 9)%nat ->
        roundToMaxDigits (PFloat x) = Ok (PFloat x))
  /\ (forall x z whole, is_integer x = false ->
        (9 < String.length (float_repr x))%nat ->
        int_of_float x = Ok z -> py_str (PInt z) = Ok whole ->
        (String.length whole <= 9)%nat ->
        roundToMaxDigits (PFloat x)
        = Ok (PStr (format_fixed (9 - String.length whole) x)))
  /\ (forall x z p, int_of_float x = Ok z ->
        exists sign whole fraction,
          format_fixed p x
          = sign ++ whole ++ (if (p =? 0)%nat then "" else String "." fraction)
          /\ (sign = "" \/ sign = "-")
          /\ (1 <= String.length whole)%nat
          /\ String.length fraction = p)
  /\ (forall z, roundToMaxDigits (PInt z) = Ok (PInt z))
  /\ (float_repr (-0x1.f9add37469512p-4)%float = "-0.123456789012"
      /\ int_of_float (-0x1.f9add37469512p-4)%float = Ok 0%Z
      /\ roundToMaxDigits (PFloat (-0x1.f9add37469512p-4)%float)
         = Ok (PStr "-0.12345679"))
  /\ (float_repr (-0x1.8b0fcd32f2476p+3)%float = "-12.3456789012"
      /\ int_of_float (-0x1.8b0fcd32f2476p+3)%float = Ok (-12)%Z
      /\ roundToMaxDigits (PFloat (-0x1.8b0fcd32f2476p+3)%float)
         = Ok (PStr "-12.345679"))
  /\ (forall libm_log10 libm_log : float -> float,
        libm_log10 9%float = log10_of_9 ->
        presses [digit 9; logarithms libm_log10 libm_log (Some 10%Z)] init
        = Returned (mkCalcApp (PStr "0.95424251") (PStr "") ["0.95424251"]
                              [] [] true false false)).
Proof.
  split; [|split; [|split; [|split; [|split; [|split; [|split]]]]]].
  - intros x Hint. unfold roundToMaxDigits. rewrite Hint.
    unfold is_integer in Hint. unfold int_of_float.
    destruct (Prim2SF x); try discriminate Hint; eexists; split; reflexivity.
  - intros x Hint Hlen. unfold roundToMaxDigits. rewrite Hint.
    change (py_str (PFloat x)) with (Ok (float_repr x)). cbn [bind].
    destruct (Nat.ltb_spec 9 (String.length (float_repr x))); [lia|reflexivity].
  - intros x z whole Hint Hlen Hz Hwhole Hfits. unfold roundToMaxDigits.
    rewrite Hint. change (py_str (PFloat x)) with (Ok (float_repr x)).
    cbn [bind].
    destruct (Nat.ltb_spec 9 (String.length (float_repr x))); [|lia].
    rewrite Hz. cbn [bind]. rewrite Hwhole. cbn [bind].
    unfold format_f.
    replace (9 - Z.of_nat (String.length whole) <? 0)%Z with false
      by (symmetry; apply Z.ltb_ge; lia).
    cbn [bind].
    replace (Z.to_nat (9 - Z.of_nat (String.length whole)))
      with (9 - String.length whole)%nat by lia.
    reflexivity.
  - intros x z p Hz. exact (format_fixed_fraction_digits p x z Hz).
  - reflexivity.
  - repeat split; vm_compute; reflexivity.
  - repeat split; vm_compute; reflexivity.
  - intros libm_log10 libm_log Hlog.
    cbn [presses].
    replace (digit 9 init)
      with (Returned (mkCalcApp (PStr "9") (PStr "") ["9"] [] []
                                true false false))
      by (vm_compute; reflexivity).
    cbn [and_then]. unfold logarithms.
    cbn [cumulativeNumInputList nonempty join].
    replace (py_float "9") with (Ok 9%float) by (vm_compute; reflexivity).
    cbn [bind]. unfold math_log.
    replace (PrimFloat.leb 9 0) with false by (vm_compute; reflexivity).
    cbn [bind]. rewrite Hlog.
    vm_compute. reflexivity.
Qed.

(** The rule at 3.0, 0.5 and [log10_of_9], and the scenario with a
    logarithm function that returns [log10_of_9]. *)
Lemma C9_formatter_rule_witness :
  (exists z, int_of_float 3%float = Ok z
             /\ roundToMaxDigits (PFloat 3%float) = Ok (PInt z))
  /\ roundToMaxDigits (PFloat 0.5%float) = Ok (PFloat 0.5%float)
  /\ roundToMaxDigits (PFloat log10_of_9) = Ok (PStr "0.95424251")
  /\ presses [digit 9;
              logarithms (fun _ => log10_of_9) (fun _ => log10_of_9)
                         (Some 10%Z)] init
     = Returned (mkCalcApp (PStr "0.95424251") (PStr "") ["0.95424251"]
                           [] [] true false false).
Proof.
  destruct C9_formatter_rule
    as (Hint & Hshort & Hlong & _ & _ & _ & _ & Hlog).
  split; [apply Hint; vm_compute; reflexivity|].
  split; [apply Hshort; vm_compute; [reflexivity | lia]|].
  split; [|apply Hlog; reflexivity].
  rewrite (Hlong log10_of_9 0%Z "0"); try (vm_compute; reflexivity).
  - vm_compute. lia.
  - vm_compute. lia.
Defined.

(** C9, as stated, fails: with 9 typed, the base-10 logarithm is
    displayed as ["0.95424251"], not ["0.954242509"]: the integer part
    ["0"] takes one of the 9 characters, which leaves 8 fractional
    digits. *)
Lemma C9_counterexample :
  exists s,
    presses [digit 9;
             logarithms (fun _ => log10_of_9) (fun _ => log10_of_9)
                        (Some 10%Z)] init = Returned s
    /\ cumulativeInputDisplayString s = PStr "0.95424251"
    /\ cumulativeInputDisplayString s <> PStr "0.954242509".
Proof.
  eexists. split; [vm_compute; reflexivity|]. cbn.
  split; [reflexivity | discriminate].
Qed.

(** Beyond the rule: when the integer part has more than 9 characters,
    the precision handed to the format specification is negative and
    the call raises [ValueError]; [logarithms] catches it, [mathPressed]
    calls the formatter outside its [try]. *)
Lemma roundToMaxDigits_integer_part_over_budget (x : float) (z : Z)
      (whole : string) :
  is_integer x = false ->
  (9 < String.length (float_repr x))%nat ->
  int_of_float x = Ok z -> py_str (PInt z) = Ok whole ->
  (9 < String.length whole)%nat ->
  roundToMaxDigits (PFloat x) = Raise ValueError.
Proof.
  intros Hint Hlen Hz Hwhole Hover. unfold roundToMaxDigits.
  rewrite Hint. change (py_str (PFloat x)) with (Ok (float_repr x)).
  cbn [bind].
  destruct (Nat.ltb_spec 9 (String.length (float_repr x))); [|lia].
  rewrite Hz. cbn [bind]. rewrite Hwhole. cbn [bind].
  unfold format_f.
  replace (9 - Z.of_nat (String.length whole) <? 0)%Z with true
    by (symmetry; apply Z.ltb_lt; lia).
  reflexivity.
Qed.

(** C10.  With an empty number list, percentage, invert, exponentiate,
    square and both logarithms return at once: every attribute of the
    state, the two display strings included, is unchanged. *)
Theorem C10_unary_operations_ignore_empty_input :
  forall (s : CalcApp) (libm_log10 libm_log : float -> float)
         (base : option Z),
    cumulativeNumInputList s = [] ->
    percentage s = Returned s
    /\ invert s = Returned s
    /\ exponentiate s = Returned s
    /\ square s = Returned s
    /\ logarithms libm_log10 libm_log base s = Returned s.
Proof.
  intros s l10 ln base Hempty.
  unfold percentage, invert, exponentiate, square, logarithms.
  rewrite Hempty. cbn [nonempty join]. repeat split; reflexivity.
Qed.

(** The initial state, with the identity for both logarithms. *)
Lemma C10_unary_operations_ignore_empty_input_witness :
  percentage init = Returned init
  /\ invert init = Returned init
  /\ exponentiate init = Returned init
  /\ square init = Returned init
  /\ logarithms (fun x => x) (fun x => x) (Some 10%Z) init = Returned init.
Proof.
  exact (C10_unary_operations_ignore_empty_input
           init (fun x => x) (fun x => x) (Some 10%Z) eq_refl).
Defined.


(** ** Part VII.  Further properties of the engine *)

Import Keys.

(** *** Strings and lists *)

Lemma append_empty_r (s : string) : s ++ "" = s.
Proof. induction s as [|c s IH]; cbn; [reflexivity | now rewrite IH]. Qed.

Lemma append_assoc (a b c : string) : (a ++ b) ++ c = a ++ b ++ c.
Proof. induction a as [|x a IH]; cbn; [reflexivity | now rewrite IH]. Qed.

Lemma join_empty_cons (x : string) (l : list string) :
  join "" (x :: l) = x ++ join "" l.
Proof. destruct l; cbn; [now rewrite append_empty_r | reflexivity]. Qed.

Lemma join_empty_app (l1 l2 : list string) :
  join "" (l1 ++ l2) = join "" l1 ++ join "" l2.
Proof.
  induction l1 as [|x l1 IH]; [reflexivity|].
  rewrite <- app_comm_cons, !join_empty_cons, IH, append_assoc. reflexivity.
Qed.

Lemma join_chars (s : string) : join "" (chars s) = s.
Proof.
  induction s as [|c s IH]; [reflexivity|].
  cbn [chars]. rewrite join_empty_cons, IH. reflexivity.
Qed.

Lemma presses_app (l1 l2 : list (CalcApp -> completion)) (s : CalcApp) :
  presses (l1 ++ l2) s = and_then (presses l1 s) (presses l2).
Proof.
  revert s; induction l1 as [|f l1 IH]; intros s; cbn [presses app and_then];
    [reflexivity|].
  destruct (f s); cbn [and_then]; auto.
Qed.

(** *** Digit buttons *)

Lemma digit_text (d : Z) :
  is_digit_value d ->
  exists c, str_of_Z d = String c "" /\ is_digit c = true
            /\ digit_val c = d.
Proof.
  unfold is_digit_value. intros Hd.
  assert (Hcases : (d = 0 \/ d = 1 \/ d = 2 \/ d = 3 \/ d = 4 \/ d = 5
                    \/ d = 6 \/ d = 7 \/ d = 8 \/ d = 9)%Z) by lia.
  repeat (destruct Hcases as [->|Hcases];
          [eexists; repeat split; reflexivity|]).
  subst d. eexists; repeat split; reflexivity.
Qed.

Lemma py_str_digit (d : Z) :
  is_digit_value d -> py_str (PInt d) = Ok (str_of_Z d).
Proof.
  unfold is_digit_value. intros Hd. cbn [py_str].
  replace (Z.abs d <? 10 ^ 4300)%Z with true; [reflexivity|].
  symmetry. apply Z.ltb_lt.
  apply Z.lt_le_trans with (10 ^ 1)%Z; [lia|].
  apply Z.pow_le_mono_r; lia.
Qed.

(** A digit changes nothing but the number list, the input display and
    [lastInputWasNum]. *)
Lemma numberPressed_text (v : value) (t : string) (s : CalcApp) :
  py_str v = Ok t ->
  numberPressed v s
  = Returned
      (mkCalcApp (PStr (replace_pow (join "" (cumulativeNumInputList s ++ [t]))))
                 (cumulativeOperationDisplayString s)
                 (cumulativeNumInputList s ++ [t])
                 (lastCumulativeNumInputList s) (cumulativeOperationList s)
                 true (lastOperationWasEval s)
                 (skipAddingLastNumInputToOperation s)).
Proof. intros H. unfold numberPressed. rewrite H. reflexivity. Qed.

Lemma presses_numbers (vs : list value) (ts : list string) :
  Forall2 (fun v t => py_str v = Ok t) vs ts ->
  vs <> [] ->
  forall s,
    presses (map numberPressed vs) s
    = Returned
        (mkCalcApp (PStr (replace_pow (join "" (cumulativeNumInputList s ++ ts))))
                   (cumulativeOperationDisplayString s)
                   (cumulativeNumInputList s ++ ts)
                   (lastCumulativeNumInputList s) (cumulativeOperationList s)
                   true (lastOperationWasEval s)
                   (skipAddingLastNumInputToOperation s)).
Proof.
  induction 1 as [|v t vs ts Hv Hrest IH]; intros Hne s; [congruence|].
  cbn [map presses]. rewrite (numberPressed_text v t s Hv). cbn [and_then].
  destruct vs as [|v' vs].
  - inversion Hrest; subst. reflexivity.
  - rewrite IH by discriminate. cbn.
    rewrite <- !app_assoc. reflexivity.
Qed.

Lemma all_digits_app (a b : string) :
  all_digits (a ++ b) = all_digits a && all_digits b.
Proof.
  induction a as [|c a IH]; cbn; [reflexivity|].
  rewrite IH, andb_assoc. reflexivity.
Qed.

Lemma all_digits_text (ds : list Z) :
  Forall is_digit_value ds -> all_digits (text ds) = true.
Proof.
  unfold text, typed. induction 1 as [|d ds Hd _ IH]; [reflexivity|].
  cbn [map]. rewrite join_empty_cons, all_digits_app, IH.
  destruct (digit_text d Hd) as (c & -> & Hc & _). cbn. now rewrite Hc.
Qed.

Lemma is_digit_not_star (c : ascii) : is_digit c = true -> Ascii.eqb c "*" = false.
Proof.
  destruct c as [[] [] [] [] [] [] [] []]; cbn; intros H;
    try reflexivity; discriminate H.
Qed.

Lemma replace_pow_digits (s : string) :
  all_digits s = true -> replace_pow s = s.
Proof.
  induction s as [|c s IH]; [reflexivity|].
  cbn [all_digits]. intros H. apply andb_prop in H as [Hc Hs].
  assert (Hstar : Ascii.eqb c "*" = false) by (apply is_digit_not_star, Hc).
  destruct (Ascii.eqb_spec c "*") as [->|Hne]; [discriminate Hstar|].
  cbn [replace_pow].
  destruct c as [[] [] [] [] [] [] [] []]; try (now rewrite IH);
    exfalso; apply Hne; reflexivity.
Qed.

Lemma typed_digits_values (ds : list Z) :
  Forall is_digit_value ds ->
  Forall2 (fun v t => py_str v = Ok t) (map PInt ds) (typed ds).
Proof.
  unfold typed. induction 1 as [|d ds Hd _ IH]; cbn [map]; constructor; auto.
  apply py_str_digit, Hd.
Qed.

Lemma map_digit (ds : list Z) : map digit ds = map numberPressed (map PInt ds).
Proof. rewrite map_map. reflexivity. Qed.

(** X1.  A run of digit buttons appends one item per digit to the number
    list and shows the whole fragment in the input display; started on
    an empty number list, the display shows exactly the digits typed.
    Nothing else changes but [lastInputWasNum], which is set. *)
Theorem X1_typed_digits_are_displayed :
  forall (ds : list Z) (s : CalcApp),
    Forall is_digit_value ds ->
    ds <> [] ->
    presses (map digit ds) s
    = Returned
        (mkCalcApp
           (PStr (replace_pow (join "" (cumulativeNumInputList s ++ typed ds))))
           (cumulativeOperationDisplayString s)
           (cumulativeNumInputList s ++ typed ds)
           (lastCumulativeNumInputList s) (cumulativeOperationList s)
           true (lastOperationWasEval s)
           (skipAddingLastNumInputToOperation s))
    /\ (cumulativeNumInputList s = [] ->
        replace_pow (join "" (cumulativeNumInputList s ++ typed ds)) = text ds).
Proof.
  intros ds s Hds Hne. split.
  - rewrite map_digit. apply presses_numbers.
    + apply typed_digits_values, Hds.
    + destruct ds; [congruence | discriminate].
  - intros ->. cbn [app]. apply replace_pow_digits, all_digits_text, Hds.
Qed.

(** The digits 4, 0, 7 typed after a first 1. *)
Lemma X1_typed_digits_are_displayed_witness :
  presses (map digit [4; 0; 7]%Z)
          (mkCalcApp (PStr "1") (PStr "") ["1"] [] [] true false false)
  = Returned (mkCalcApp (PStr "1407") (PStr "") ["1"; "4"; "0"; "7"] [] []
                        true false false).
Proof.
  apply (proj1 (X1_typed_digits_are_displayed
                  [4; 0; 7]%Z
                  (mkCalcApp (PStr "1") (PStr "") ["1"] [] [] true false false)
                  ltac:(repeat constructor; unfold is_digit_value; lia)
                  ltac:(discriminate))).
Defined.

(** *** Backspace *)

(** Backspace while a number is being typed takes the last item off the
    number list; a list left as the lone sign is emptied. *)
Lemma clearLast_typing (s : CalcApp) (l : list string) (t : string) :
  lastInputWasNum s = true ->
  cumulativeNumInputList s = (l ++ [t])%list ->
  l <> ["-"] ->
  clearLast s
  = Returned (set_inputDisplay
                (PStr (match l with [] => "0" | _ => join "" l end))
                (set_numInputList l s)).
Proof.
  intros Hnum Hlist Hsign. unfold clearLast.
  rewrite Hnum, Hlist. rewrite andb_false_r.
  rewrite length_app. cbn [List.length].
  replace (0 <? List.length l + 1)%nat with true
    by (symmetry; apply Nat.ltb_lt; lia).
  rewrite removelast_last.
  cbn [cumulativeNumInputList set_numInputList].
  destruct l as [|x [|y l]].
  - reflexivity.
  - destruct (String.eqb_spec x "-") as [->|Hx]; [congruence|]. reflexivity.
  - reflexivity.
Qed.

Lemma clearLast_run (ts : list string) :
  forall (l : list string) (s : CalcApp),
    lastInputWasNum s = true ->
    cumulativeNumInputList s = (l ++ ts)%list ->
    hd "" (l ++ ts)%list <> "-" ->
    ts <> [] ->
    presses (repeat clearLast (List.length ts)) s
    = Returned (set_inputDisplay
                  (PStr (match l with [] => "0" | _ => join "" l end))
                  (set_numInputList l s)).
Proof.
  induction ts as [|t ts IH] using rev_ind; intros l s Hnum Hlist Hhd Hne;
    [congruence|].
  rewrite length_app. cbn [List.length].
  replace (List.length ts + 1) with (S (List.length ts)) by lia.
  cbn [repeat presses].
  rewrite app_assoc in Hlist, Hhd.
  rewrite (clearLast_typing s (l ++ ts)%list t Hnum Hlist).
  2:{ intros Heq. rewrite Heq in Hhd. apply Hhd. reflexivity. }
  cbn [and_then].
  destruct ts as [|t' ts'].
  - rewrite app_nil_r. reflexivity.
  - rewrite IH with (l := l).
    + destruct s; destruct l; reflexivity.
    + exact Hnum.
    + reflexivity.
    + intros Heq. apply Hhd. revert Heq.
      destruct l as [|x l]; cbn; auto.
    + discriminate.
Qed.

Lemma hd_typed_not_sign (ds : list Z) :
  Forall is_digit_value ds -> hd "" (typed ds) <> "-".
Proof.
  intros Hds. destruct Hds as [|d ds Hd _]; cbn; [discriminate|].
  destruct (digit_text d Hd) as (c & -> & Hc & _).
  intros Heq. inversion Heq; subst. discriminate Hc.
Qed.

(** X2.  Backspace undoes digit buttons: after a run of digits and as many
    backspaces, the number list is what it was before the run.  The
    input display then shows the plain concatenation of that list, or
    ["0"] when the list is empty; [lastInputWasNum] stays set. *)
Theorem X2_backspace_undoes_digits :
  forall (ds : list Z) (s : CalcApp),
    Forall is_digit_value ds ->
    ds <> [] ->
    hd "" (cumulativeNumInputList s ++ typed ds) <> "-" ->
    presses (map digit ds ++ repeat clearLast (List.length ds)) s
    = Returned
        (mkCalcApp
           (PStr (match cumulativeNumInputList s with
                  | [] => "0"
                  | _ => join "" (cumulativeNumInputList s)
                  end))
           (cumulativeOperationDisplayString s)
           (cumulativeNumInputList s)
           (lastCumulativeNumInputList s) (cumulativeOperationList s)
           true (lastOperationWasEval s)
           (skipAddingLastNumInputToOperation s)).
Proof.
  intros ds s Hds Hne Hhd.
  rewrite presses_app, map_digit.
  rewrite (presses_numbers (map PInt ds) (typed ds)).
  2:{ apply typed_digits_values, Hds. }
  2:{ destruct ds; [congruence | discriminate]. }
  cbn [and_then].
  replace (List.length ds) with (List.length (typed ds))
    by (unfold typed; apply length_map).
  rewrite clearLast_run with (l := cumulativeNumInputList s).
  - destruct s as [i o n l ops f1 f2 skip]. destruct n; reflexivity.
  - reflexivity.
  - reflexivity.
  - exact Hhd.
  - unfold typed. destruct ds; [congruence | discriminate].
Qed.

(** Three digits typed and erased in the initial state. *)
Lemma X2_backspace_undoes_digits_witness :
  presses (map digit [1; 2; 3]%Z ++ repeat clearLast 3) init
  = Returned (mkCalcApp (PStr "0") (PStr "") [] [] [] true false false).
Proof.
  apply (X2_backspace_undoes_digits [1; 2; 3]%Z init).
  - repeat constructor; unfold is_digit_value; lia.
  - discriminate.
  - discriminate.
Defined.

(** *** Sign *)

Lemma invert_numeric (s : CalcApp) (c : ascii) (rest : string) :
  join "" (cumulativeNumInputList s) = String c rest ->
  isnumeric c = true ->
  invert s
  = Returned (set_inputDisplay (PStr (String "-" (String c rest)))
                (set_numInputList (chars (String "-" (String c rest))) s)).
Proof.
  intros Hjoin Hc. unfold invert. rewrite Hjoin, Hc.
  cbv zeta. cbn [cumulativeNumInputList set_numInputList].
  rewrite join_chars. reflexivity.
Qed.

Lemma invert_other (s : CalcApp) (c : ascii) (rest : string) :
  join "" (cumulativeNumInputList s) = String c rest ->
  isnumeric c = false ->
  invert s
  = Returned (set_inputDisplay (PStr rest) (set_numInputList (chars rest) s)).
Proof.
  intros Hjoin Hc. unfold invert. rewrite Hjoin, Hc.
  cbv zeta. cbn [cumulativeNumInputList set_numInputList].
  rewrite join_chars. reflexivity.
Qed.

(** X3.  [invert] is its own inverse on a fragment that starts with a
    numeric character, or with ['-'] followed by one: after two calls
    the fragment reads as before and is displayed as such; the number
    list is the fragment split into its characters. *)
Theorem X3_invert_twice_restores_fragment :
  forall (s : CalcApp) (c : ascii) (rest : string),
    join "" (cumulativeNumInputList s) = String c rest ->
    isnumeric c = true \/ (c = "-"%char /\ head_isnumeric rest = true) ->
    presses [invert; invert] s
    = Returned (set_inputDisplay (PStr (String c rest))
                  (set_numInputList (chars (String c rest)) s)).
Proof.
  intros s c rest Hjoin Hsign. cbn [presses].
  destruct Hsign as [Hc|[-> Hrest]].
  - rewrite (invert_numeric s c rest Hjoin Hc). cbn [and_then].
    rewrite (invert_other _ "-"%char (String c rest)).
    + destruct s; reflexivity.
    + cbn [cumulativeNumInputList set_numInputList set_inputDisplay].
      apply join_chars.
    + reflexivity.
  - rewrite (invert_other s "-"%char rest Hjoin eq_refl). cbn [and_then].
    destruct rest as [|c' rest']; [discriminate Hrest|].
    cbn [head_isnumeric] in Hrest.
    rewrite (invert_numeric _ c' rest').
    + destruct s; reflexivity.
    + cbn [cumulativeNumInputList set_numInputList set_inputDisplay].
      apply join_chars.
    + exact Hrest.
Qed.

(** The fragments ["12"] (typed as 1, 2) and ["-7"]. *)
Lemma X3_invert_twice_restores_fragment_witness :
  presses [invert; invert]
          (mkCalcApp (PStr "12") (PStr "") ["1"; "2"] [] [] true false false)
  = Returned (mkCalcApp (PStr "12") (PStr "") ["1"; "2"] [] [] true false false)
  /\ presses [invert; invert]
             (mkCalcApp (PStr "-7") (PStr "") ["-7"] [] [] false true false)
     = Returned (mkCalcApp (PStr "-7") (PStr "") ["-"; "7"] [] []
                           false true false).
Proof.
  split.
  - apply (X3_invert_twice_restores_fragment
             (mkCalcApp (PStr "12") (PStr "") ["1"; "2"] [] [] true false false)
             "1"%char "2" eq_refl).
    left. reflexivity.
  - apply (X3_invert_twice_restores_fragment
             (mkCalcApp (PStr "-7") (PStr "") ["-7"] [] [] false true false)
             "-"%char "7" eq_refl).
    right. split; reflexivity.
Defined.

(** *** Operators and backspace *)

(** X4.  Backspace right after an operator press takes the operator off
    the operation list, restores the number list from the snapshot and
    sets the skip flag.  The number committed with the operator stays in
    the operation list, and the input display stays blank. *)
Theorem X4_backspace_takes_back_operator :
  forall (s : CalcApp) (op : string),
    lastInputWasNum s || lastOperationWasEval s = true ->
    truthy (join "" (cumulativeNumInputList s)) = true ->
    String.eqb op "=" = false ->
    presses [operator op; clearLast] s
    = Returned
        (mkCalcApp (PStr "")
           (PStr (join " " (cumulativeOperationList (commit_input s))))
           (cumulativeNumInputList s) (cumulativeNumInputList s)
           (cumulativeOperationList (commit_input s))
           false false true).
Proof.
  intros s op Hflags Hnum Hop. cbn [presses]. unfold operator.
  rewrite (mathPressed_operator op s Hflags Hnum Hop).
  unfold append_operator. cbn [and_then]. unfold clearLast.
  cbn [lastOperationWasEval lastInputWasNum cumulativeOperationList
       set_operationDisplay set_inputDisplay set_lastOperationWasEval
       set_numInputList set_lastNumInputList set_operationList andb negb].
  rewrite length_app. cbn [List.length].
  replace (List.length (cumulativeOperationList (commit_input s)) + 1 =? 0)%nat
    with false by (symmetry; apply Nat.eqb_neq; lia).
  rewrite removelast_last.
  destruct s as [i o n l ops f1 f2 skip]. destruct skip; reflexivity.
Qed.

(** The state reached by 1, 2. *)
Lemma X4_backspace_takes_back_operator_witness :
  presses [operator "+"; clearLast]
          (mkCalcApp (PStr "12") (PStr "") ["1"; "2"] [] [] true false false)
  = Returned (mkCalcApp (PStr "") (PStr "12") ["1"; "2"] ["1"; "2"] ["12"]
                        false false true).
Proof.
  apply (X4_backspace_takes_back_operator
           (mkCalcApp (PStr "12") (PStr "") ["1"; "2"] [] [] true false false)
           "+"); reflexivity.
Defined.

(** *** After an evaluation *)

(** A successful evaluation, as a state. *)
Lemma mathPressed_equals_result (s : CalcApp) (v : value) (t : string)
      (shown : value) :
  lastInputWasNum s || lastOperationWasEval s = true ->
  truthy (join "" (cumulativeNumInputList s)) = true ->
  py_eval (normalize (join "" (cumulativeOperationList (commit_input s))))
  = Ok v ->
  py_str v = Ok t ->
  roundToMaxDigits v = Ok shown ->
  mathPressed "=" s
  = Returned
      (mkCalcApp shown
         (PStr (replace_pow
                  (normalize
                     (join "" (cumulativeOperationList (commit_input s))))))
         [t] (lastCumulativeNumInputList s) [] false true false).
Proof.
  intros Hflags Hnum Heval Hstr Hround.
  rewrite (mathPressed_equals s Hflags Hnum), evaluate_expression.
  cbv zeta. rewrite Heval. cbn [call]. rewrite Hstr. cbn [call].
  rewrite Hround. cbn [call].
  destruct s as [i o n l ops f1 f2 skip]. destruct skip; reflexivity.
Qed.

(** X5.  After a successful evaluation, backspace is ignored; a number
    button appends its text to the text of the result; an operator
    button commits the text of the result as the first operand of a new
    operation. *)
Theorem X5_after_a_result :
  forall (s : CalcApp) (v : value) (t : string) (shown : value),
    lastInputWasNum s || lastOperationWasEval s = true ->
    truthy (join "" (cumulativeNumInputList s)) = true ->
    py_eval (normalize (join "" (cumulativeOperationList (commit_input s))))
    = Ok v ->
    py_str v = Ok t ->
    roundToMaxDigits v = Ok shown ->
    presses [equals; clearLast] s = presses [equals] s
    /\ (forall (d : value) (td : string),
           py_str d = Ok td ->
           presses [equals; numberPressed d] s
           = Returned
               (mkCalcApp
                  (PStr (replace_pow (t ++ td)))
                  (PStr (replace_pow
                           (normalize
                              (join "" (cumulativeOperationList
                                          (commit_input s))))))
                  [t; td] (lastCumulativeNumInputList s) []
                  true true false))
    /\ (forall op : string,
           String.eqb op "=" = false ->
           truthy t = true ->
           presses [equals; operator op] s
           = Returned
               (mkCalcApp (PStr "") (PStr (t ++ " " ++ op)) [] [t] [t; op]
                          false false false)).
Proof.
  intros s v t shown Hflags Hnum Heval Hstr Hround.
  pose proof (mathPressed_equals_result s v t shown Hflags Hnum Heval Hstr Hround)
    as Hres.
  unfold equals. cbn [presses]. rewrite Hres. cbn [and_then].
  split; [reflexivity|]. split.
  - intros d td Hd. rewrite (numberPressed_text d td _ Hd). reflexivity.
  - intros op Hop Ht. unfold operator.
    rewrite mathPressed_operator.
    + reflexivity.
    + reflexivity.
    + exact Ht.
    + exact Hop.
Qed.

(** The state reached by 1, 2, [+], 8, with result 20. *)
Lemma X5_after_a_result_witness :
  presses [equals; clearLast]
          (mkCalcApp (PStr "8") (PStr "12 +") ["8"] ["1"; "2"] ["12"; "+"]
                     true false false)
  = presses [equals]
            (mkCalcApp (PStr "8") (PStr "12 +") ["8"] ["1"; "2"] ["12"; "+"]
                       true false false)
  /\ presses [equals; operator "*"]
             (mkCalcApp (PStr "8") (PStr "12 +") ["8"] ["1"; "2"] ["12"; "+"]
                        true false false)
     = Returned (mkCalcApp (PStr "") (PStr "20 *") [] ["20"] ["20"; "*"]
                           false false false).
Proof.
  destruct (X5_after_a_result
              (mkCalcApp (PStr "8") (PStr "12 +") ["8"] ["1"; "2"] ["12"; "+"]
                         true false false)
              (PInt 20) "20" (PInt 20)) as (Hback & _ & Hop);
    try (vm_compute; reflexivity).
  split; [exact Hback|].
  apply (Hop "*"); reflexivity.
Defined.

(** *** More on [parseParentheses] *)

Lemma normalize_from_no_parenthesis (s : string) :
  existsb_string is_parenthesis s = false ->
  forall pn, normalize_from pn s = s.
Proof.
  induction s as [|c s IH]; intros H pn; [reflexivity|].
  cbn [existsb_string] in H. apply orb_false_elim in H as [Hc Hs].
  unfold is_parenthesis in Hc. apply orb_false_elim in Hc as [Hl Hr].
  cbn [normalize_from]. rewrite Hl, Hr. cbn [andb].
  rewrite IH by exact Hs. reflexivity.
Qed.

(** X6.  An expression without parentheses is returned as it is. *)
Theorem X6_no_parenthesis_no_change :
  forall s : string,
    existsb_string is_parenthesis s = false ->
    parseParentheses s = Ok s.
Proof.
  intros s H. rewrite parseParentheses_normalize. unfold normalize.
  rewrite normalize_from_no_parenthesis by exact H. reflexivity.
Qed.

Lemma X6_no_parenthesis_no_change_witness :
  parseParentheses "12+8*3" = Ok "12+8*3".
Proof.
  apply (X6_no_parenthesis_no_change "12+8*3"). reflexivity.
Defined.

Lemma without_stars_normalize_from (s : string) :
  forall pn, without_stars (normalize_from pn s) = without_stars s.
Proof.
  induction s as [|c s IH]; intros pn; [reflexivity|].
  cbn [normalize_from].
  destruct (Ascii.eqb c "(" && (pn && head_isnumeric s)) eqn:Hl.
  - apply andb_prop in Hl as [Hl _]. apply Ascii.eqb_eq in Hl. subst c.
    cbn [without_stars]. change (Ascii.eqb "*" "*") with true.
    change (Ascii.eqb "(" "*") with false. cbn iota. now rewrite IH.
  - destruct (Ascii.eqb c ")" && (pn && head_isnumeric s)) eqn:Hr.
    + apply andb_prop in Hr as [Hr _]. apply Ascii.eqb_eq in Hr. subst c.
      cbn [without_stars]. change (Ascii.eqb "*" "*") with true.
      change (Ascii.eqb ")" "*") with false. cbn iota. now rewrite IH.
    + cbn [without_stars]. rewrite IH. reflexivity.
Qed.

(** X7.  [parseParentheses] only adds ['*'] characters: apart from its
    stars, the result is the input, character for character, and it is
    never shorter than the input. *)
Theorem X7_only_stars_are_added :
  forall s : string,
    exists out,
      parseParentheses s = Ok out
      /\ without_stars out = without_stars s
      /\ String.length s <= String.length out.
Proof.
  intros s. exists (normalize s).
  split; [apply parseParentheses_normalize|].
  split; [apply without_stars_normalize_from|].
  unfold normalize. generalize false.
  induction s as [|c s IH]; intros pn; [apply le_n|].
  cbn [normalize_from].
  destruct (Ascii.eqb c "(" && (pn && head_isnumeric s));
    [|destruct (Ascii.eqb c ")" && (pn && head_isnumeric s))];
    cbn [String.length]; specialize (IH false) as IH0;
    specialize (IH (isnumeric c)); lia.
Qed.

Lemma adjacent_normalize_from (s : string) :
  forall pn, adjacent pn (normalize_from pn s) = false.
Proof.
  induction s as [|c s IH]; intros pn; [reflexivity|].
  cbn [normalize_from].
  destruct (Ascii.eqb c "(" && (pn && head_isnumeric s)) eqn:Hl.
  - apply andb_prop in Hl as [Hl _]. apply Ascii.eqb_eq in Hl. subst c.
    cbn [adjacent]. change (is_parenthesis "*") with false.
    change (isnumeric "*") with false. change (isnumeric "(") with false.
    rewrite andb_false_r. cbn [andb orb]. apply IH.
  - destruct (Ascii.eqb c ")" && (pn && head_isnumeric s)) eqn:Hr.
    + apply andb_prop in Hr as [Hr _]. apply Ascii.eqb_eq in Hr. subst c.
      cbn [adjacent head_isnumeric]. change (is_parenthesis "*") with false.
      change (isnumeric "*") with false. change (isnumeric ")") with false.
      rewrite !andb_false_r. cbn [andb orb]. apply IH.
    + cbn [adjacent]. rewrite head_isnumeric_normalize_from, IH.
      rewrite orb_false_r. unfold is_parenthesis.
      destruct (Ascii.eqb c "("), (Ascii.eqb c ")"); cbn in *;
        try reflexivity; rewrite ?andb_assoc in *; assumption.
Qed.

(** The scan [adjacent] agrees with the test of the source at every
    position behind a first character. *)
Lemma no_adjacent_operator_scan (s : string) :
  forall (a c : ascii) (p : nat),
    adjacent (isnumeric a) s = false ->
    String.get p s = Some c ->
    is_parenthesis c = true ->
    no_adjacent_operator (String a s) (S p) = Ok false.
Proof.
  induction s as [|x s IH]; intros a c p Hadj Hget Hc; [discriminate Hget|].
  cbn [adjacent] in Hadj. apply orb_false_elim in Hadj as [Hhere Hrest].
  destruct p as [|p].
  - cbn in Hget. inversion Hget; subst x. rewrite Hc in Hhere.
    cbn [andb] in Hhere.
    unfold no_adjacent_operator, index.
    cbn [Nat.ltb Nat.leb Nat.sub Nat.add String.get bind String.length].
    destruct (isnumeric a); [|reflexivity]. cbn [andb] in Hhere.
    destruct s as [|y s]; [reflexivity|].
    cbn [head_isnumeric] in Hhere.
    cbn [String.get bind]. rewrite Hhere.
    destruct (negb _); reflexivity.
  - rewrite no_adjacent_operator_cons by lia.
    apply (IH x c p Hrest); assumption.
Qed.

(** X8.  In the result of [parseParentheses] the test of the source for
    a missing operator fails at every parenthesis: no parenthesis is
    left with a numeric character on both of its sides. *)
Theorem X8_no_parenthesis_between_numerics_remains :
  forall s : string,
    exists out,
      parseParentheses s = Ok out
      /\ forall (p : nat) (c : ascii),
           String.get p out = Some c ->
           is_parenthesis c = true ->
           no_adjacent_operator out p = Ok false.
Proof.
  intros s. exists (normalize s).
  split; [apply parseParentheses_normalize|].
  intros p c Hget Hc.
  pose proof (adjacent_normalize_from s false) as Hadj.
  fold (normalize s) in Hadj.
  destruct (normalize s) as [|a t]; [discriminate Hget|].
  destruct p as [|p]; [reflexivity|].
  cbn [adjacent] in Hadj. apply orb_false_elim in Hadj as [_ Hadj].
  apply (no_adjacent_operator_scan t a c p Hadj); assumption.
Qed.

(** *** The tokens of typed numbers *)

Lemma digit_cases (d : Z) :
  is_digit_value d ->
  (d = 0 \/ d = 1 \/ d = 2 \/ d = 3 \/ d = 4 \/ d = 5 \/ d = 6 \/ d = 7
   \/ d = 8 \/ d = 9)%Z.
Proof. unfold is_digit_value. lia. Qed.

Lemma text_cons (d : Z) (ds : list Z) :
  text (d :: ds) = str_of_Z d ++ text ds.
Proof. unfold text, typed. cbn [map]. apply join_empty_cons. Qed.

Lemma length_text (ds : list Z) :
  Forall is_digit_value ds -> String.length (text ds) = List.length ds.
Proof.
  induction 1 as [|d ds Hd _ IH]; [reflexivity|].
  rewrite text_cons, length_append, IH.
  destruct (digit_text d Hd) as (c & -> & _). reflexivity.
Qed.

Lemma Z_of_digits_text (ds : list Z) :
  Forall is_digit_value ds ->
  forall acc,
    Z_of_digits acc (text ds)
    = fold_left (fun a d => (10 * a + d)%Z) ds acc.
Proof.
  induction 1 as [|d ds Hd _ IH]; intros acc; [reflexivity|].
  rewrite text_cons.
  destruct (digit_text d Hd) as (c & -> & _ & Hval).
  cbn [String.append Z_of_digits fold_left]. rewrite Hval. apply IH.
Qed.

Lemma number_bounds (ds : list Z) :
  Forall is_digit_value ds ->
  forall acc, (0 <= acc)%Z ->
    (0 <= fold_left (fun a d => (10 * a + d)%Z) ds acc
     < (acc + 1) * 10 ^ Z.of_nat (List.length ds))%Z.
Proof.
  induction 1 as [|d ds Hd _ IH]; intros acc Hacc.
  - cbn. lia.
  - cbn [fold_left List.length]. unfold is_digit_value in Hd.
    specialize (IH (10 * acc + d)%Z ltac:(lia)).
    rewrite Nat2Z.inj_succ, Z.pow_succ_r by lia.
    assert (0 < 10 ^ Z.of_nat (List.length ds))%Z
      by (apply Z.pow_pos_nonneg; lia).
    nia.
Qed.

Lemma lex_digit (c : ascii) :
  is_digit c = true ->
  forall (p : option pending) (rest : string),
    lex p (String c rest)
    = match p with
      | None => lex (Some (String c "", None)) rest
      | Some (i, None) => lex (Some (i ++ String c "", None)) rest
      | Some (i, Some f) => lex (Some (i, Some (f ++ String c ""))) rest
      end.
Proof.
  destruct c as [[] [] [] [] [] [] [] []]; intros H; try discriminate H;
    reflexivity.
Qed.

Lemma lex_digits (d : string) :
  all_digits d = true ->
  forall (i rest : string),
    lex (Some (i, None)) (d ++ rest) = lex (Some (i ++ d, None)) rest.
Proof.
  induction d as [|c d IH]; intros H i rest.
  - now rewrite append_empty_r.
  - cbn [all_digits] in H. apply andb_prop in H as [Hc Hd].
    cbn [String.append]. rewrite (lex_digit c Hc).
    rewrite IH by exact Hd. rewrite append_assoc. reflexivity.
Qed.

(** A run of digits at the start of a numeral is read as one pending
    integer. *)
Lemma lex_number (d rest : string) :
  all_digits d = true -> d <> "" ->
  lex None (d ++ rest) = lex (Some (d, None)) rest.
Proof.
  intros H Hne. destruct d as [|c d]; [congruence|].
  cbn [all_digits] in H. apply andb_prop in H as [Hc Hd].
  cbn [String.append]. rewrite (lex_digit c Hc).
  rewrite lex_digits by exact Hd. reflexivity.
Qed.

Lemma lex_star_digit (c : ascii) :
  is_digit c = true ->
  forall (p : option pending) (rest : string),
    lex p (String "*" (String c rest))
    = emit p TStar (lex None (String c rest)).
Proof.
  destruct c as [[] [] [] [] [] [] [] []]; intros H; try discriminate H;
    reflexivity.
Qed.

(** The token of a typed number without leading zero. *)
Lemma flush_plain (ds : list Z) :
  plain ds ->
  flush (Some (text ds, None)) = Ok [TNum (PInt (number ds))].
Proof.
  intros [Hds Hshape]. unfold flush, number.
  rewrite (Z_of_digits_text ds Hds).
  destruct ds as [|d [|d2 ds]]; [contradiction| |].
  - inversion Hds as [|? ? Hd _]; subst.
    destruct (digit_cases d Hd) as [->|[->|[->|[->|[->|[->|[->|[->|[->| ->]]]]]]]]];
      reflexivity.
  - inversion Hds as [|? ? Hd Hrest]; subst.
    rewrite text_cons.
    destruct (digit_cases d Hd) as [->|[->|[->|[->|[->|[->|[->|[->|[->| ->]]]]]]]]];
      try congruence; reflexivity.
Qed.

Lemma text_not_empty (ds : list Z) :
  Forall is_digit_value ds -> ds <> [] -> text ds <> "".
Proof.
  intros Hds Hne Htext. apply (f_equal String.length) in Htext.
  rewrite length_text in Htext by exact Hds.
  destruct ds; [congruence | discriminate Htext].
Qed.

Lemma plain_digits (ds : list Z) : plain ds -> Forall is_digit_value ds.
Proof. intros [H _]. exact H. Qed.

Lemma plain_not_nil (ds : list Z) : plain ds -> ds <> [].
Proof. intros [_ H] ->. exact H. Qed.

(** The tokens of two typed numbers around one of [+], [-], [*]. *)
Lemma lex_arith (o : arith) (da db : list Z) :
  plain da -> plain db ->
  lex None (text da ++ symbol o ++ text db)
  = Ok [TNum (PInt (number da));
        match o with Plus => TPlus | Minus => TMinus | Times => TStar end;
        TNum (PInt (number db))].
Proof.
  intros Ha Hb.
  pose proof (plain_digits _ Ha) as Hda. pose proof (plain_digits _ Hb) as Hdb.
  rewrite lex_number
    by (try apply all_digits_text; try apply text_not_empty;
        auto using plain_not_nil).
  assert (Hrest : lex None (text db) = Ok [TNum (PInt (number db))]).
  { rewrite <- (append_empty_r (text db)).
    rewrite lex_number
      by (try apply all_digits_text; try apply text_not_empty;
          auto using plain_not_nil).
    cbn [lex]. apply flush_plain, Hb. }
  destruct o; cbn [symbol String.append].
  - change (lex (Some (text da, None)) (String "+" (text db)))
      with (emit (Some (text da, None)) TPlus (lex None (text db))).
    unfold emit. rewrite (flush_plain da Ha), Hrest. reflexivity.
  - change (lex (Some (text da, None)) (String "-" (text db)))
      with (emit (Some (text da, None)) TMinus (lex None (text db))).
    unfold emit. rewrite (flush_plain da Ha), Hrest. reflexivity.
  - destruct (text db) as [|c t] eqn:Htext.
    + exfalso. apply (text_not_empty db Hdb (plain_not_nil _ Hb) Htext).
    + assert (Hc : is_digit c = true).
      { pose proof (all_digits_text db Hdb) as Hall. rewrite Htext in Hall.
        cbn [all_digits] in Hall. now apply andb_prop in Hall as [Hc _]. }
      rewrite (lex_star_digit c Hc). unfold emit.
      rewrite (flush_plain da Ha), Hrest. reflexivity.
Qed.

Lemma existsb_string_app (f : ascii -> bool) (a b : string) :
  existsb_string f (a ++ b) = existsb_string f a || existsb_string f b.
Proof.
  induction a as [|c a IH]; cbn; [reflexivity|].
  rewrite IH, orb_assoc. reflexivity.
Qed.

Lemma digits_no_parenthesis (s : string) :
  all_digits s = true -> existsb_string is_parenthesis s = false.
Proof.
  induction s as [|c s IH]; [reflexivity|].
  cbn [all_digits existsb_string]. intros H.
  apply andb_prop in H as [Hc Hs]. rewrite IH by exact Hs.
  destruct c as [[] [] [] [] [] [] [] []]; try discriminate Hc; reflexivity.
Qed.

Lemma replace_pow_digits_app (a rest : string) :
  all_digits a = true -> replace_pow (a ++ rest) = a ++ replace_pow rest.
Proof.
  induction a as [|c a IH]; [reflexivity|].
  cbn [all_digits]. intros H. apply andb_prop in H as [Hc Ha].
  cbn [String.append].
  destruct c as [[] [] [] [] [] [] [] []]; try discriminate Hc;
    cbn [replace_pow]; now rewrite IH.
Qed.

Lemma replace_pow_star_digit (c : ascii) (rest : string) :
  is_digit c = true ->
  replace_pow (String "*" (String c rest))
  = String "*" (replace_pow (String c rest)).
Proof.
  destruct c as [[] [] [] [] [] [] [] []]; intros H; try discriminate H;
    reflexivity.
Qed.

Lemma head_digit_text (ds : list Z) :
  Forall is_digit_value ds -> ds <> [] ->
  exists c t, text ds = String c t /\ is_digit c = true.
Proof.
  intros Hds Hne.
  destruct (text ds) as [|c t] eqn:Htext.
  - exfalso. apply (text_not_empty ds Hds Hne Htext).
  - exists c, t. split; [reflexivity|].
    pose proof (all_digits_text ds Hds) as Hall. rewrite Htext in Hall.
    cbn [all_digits] in Hall. now apply andb_prop in Hall as [Hc _].
Qed.

Lemma replace_pow_arith (o : arith) (da db : list Z) :
  plain da -> plain db ->
  replace_pow (text da ++ symbol o ++ text db)
  = text da ++ symbol o ++ text db.
Proof.
  intros Ha Hb.
  pose proof (plain_digits _ Ha) as Hda. pose proof (plain_digits _ Hb) as Hdb.
  rewrite replace_pow_digits_app by (apply all_digits_text, Hda).
  f_equal.
  destruct (head_digit_text db Hdb (plain_not_nil _ Hb)) as (c & t & Htext & Hc).
  assert (Hb' : replace_pow (text db) = text db)
    by (apply replace_pow_digits, all_digits_text, Hdb).
  destruct o; cbn [symbol String.append].
  - cbn [replace_pow]. now rewrite Hb'.
  - cbn [replace_pow]. now rewrite Hb'.
  - rewrite Htext in *. rewrite (replace_pow_star_digit c t Hc).
    now rewrite Hb'.
Qed.

Lemma no_parenthesis_arith (o : arith) (da db : list Z) :
  plain da -> plain db ->
  existsb_string is_parenthesis (text da ++ symbol o ++ text db) = false.
Proof.
  intros Ha Hb.
  rewrite !existsb_string_app.
  rewrite (digits_no_parenthesis (text da))
    by (apply all_digits_text, plain_digits, Ha).
  rewrite (digits_no_parenthesis (text db))
    by (apply all_digits_text, plain_digits, Hb).
  destruct o; reflexivity.
Qed.

(** [eval] on two typed numbers around one of [+], [-], [*]. *)
Lemma py_eval_arith (o : arith) (da db : list Z) :
  plain da -> plain db ->
  List.length da + List.length db < 150 ->
  py_eval (text da ++ symbol o ++ text db)
  = Ok (PInt (apply_arith o (number da) (number db))).
Proof.
  intros Ha Hb Hlen. unfold py_eval.
  replace (150 <? String.length (text da ++ symbol o ++ text db))%nat
    with false.
  2:{ symmetry. apply Nat.ltb_ge.
      rewrite !length_append, !length_text by auto using plain_digits.
      destruct o; cbn; lia. }
  rewrite (lex_arith o da db Ha Hb). cbn [bind].
  destruct o; reflexivity.
Qed.

Lemma number_range (ds : list Z) :
  Forall is_digit_value ds ->
  (0 <= number ds < 10 ^ Z.of_nat (List.length ds))%Z.
Proof.
  intros Hds. pose proof (number_bounds ds Hds 0%Z ltac:(lia)) as H.
  unfold number. lia.
Qed.

(** The result of [+], [-] or [*] on two typed numbers is within the
    integers [str] converts. *)
Lemma py_str_arith (o : arith) (da db : list Z) :
  Forall is_digit_value da -> Forall is_digit_value db ->
  List.length da + List.length db < 150 ->
  py_str (PInt (apply_arith o (number da) (number db)))
  = Ok (str_of_Z (apply_arith o (number da) (number db))).
Proof.
  intros Hda Hdb Hlen. cbn [py_str].
  replace (Z.abs (apply_arith o (number da) (number db)) <? 10 ^ 4300)%Z
    with true; [reflexivity|].
  symmetry. apply Z.ltb_lt.
  pose proof (number_range da Hda) as Ra.
  pose proof (number_range db Hdb) as Rb.
  assert (Hbig : (2 * (10 ^ 150 * 10 ^ 150) <= 10 ^ 4300)%Z).
  { rewrite <- Z.pow_add_r by lia.
    apply Z.le_trans with (10 ^ 1 * 10 ^ (150 + 150))%Z;
      [rewrite Z.pow_1_r; lia|].
    rewrite <- Z.pow_add_r by lia. apply Z.pow_le_mono_r; lia. }
  assert (HM : (0 < 10 ^ 150)%Z) by (apply Z.pow_pos_nonneg; lia).
  assert (Ha : (number da < 10 ^ 150)%Z).
  { apply Z.lt_le_trans with (10 ^ Z.of_nat (List.length da))%Z; [lia|].
    apply Z.pow_le_mono_r; lia. }
  assert (Hb : (number db < 10 ^ 150)%Z).
  { apply Z.lt_le_trans with (10 ^ Z.of_nat (List.length db))%Z; [lia|].
    apply Z.pow_le_mono_r; lia. }
  destruct Ra as [Ra _]. destruct Rb as [Rb _].
  revert Hbig HM Ha Hb. generalize (10 ^ 4300)%Z (10 ^ 150)%Z.
  intros big M Hbig HM Ha Hb.
  apply Z.lt_le_trans with (2 * (M * M))%Z; [|exact Hbig].
  destruct o; cbn [apply_arith]; nia.
Qed.

Lemma truthy_text (ds : list Z) :
  Forall is_digit_value ds -> ds <> [] -> truthy (text ds) = true.
Proof.
  intros Hds Hne. unfold truthy.
  destruct (String.eqb_spec (text ds) ""); [|reflexivity].
  exfalso. eapply text_not_empty; eauto.
Qed.

(** *** Whole calculations *)

(** A typed number in a state whose number list is empty. *)
Lemma presses_digits_fresh (ds : list Z) (s : CalcApp) :
  Forall is_digit_value ds -> ds <> [] ->
  cumulativeNumInputList s = [] ->
  presses (map digit ds) s
  = Returned
      (mkCalcApp (PStr (text ds)) (cumulativeOperationDisplayString s)
                 (typed ds) (lastCumulativeNumInputList s)
                 (cumulativeOperationList s) true (lastOperationWasEval s)
                 (skipAddingLastNumInputToOperation s)).
Proof.
  intros Hds Hne Hnum. rewrite map_digit.
  rewrite (presses_numbers (map PInt ds) (typed ds)).
  - rewrite Hnum. cbn [app]. fold (text ds).
    rewrite replace_pow_digits by (apply all_digits_text, Hds). reflexivity.
  - apply typed_digits_values, Hds.
  - destruct ds; [congruence | discriminate].
Qed.

Lemma symbol_not_equals (o : arith) : String.eqb (symbol o) "=" = false.
Proof. destruct o; reflexivity. Qed.

(** Runs the attribute assignments of a method body on an explicit state. *)
Ltac assignments :=
  cbv [append_operator commit_input set_operationDisplay
       set_inputDisplay set_lastOperationWasEval set_numInputList
       set_lastNumInputList set_operationList set_lastInputWasNum
       set_skipAdding
       skipAddingLastNumInputToOperation negb cumulativeOperationList
       cumulativeNumInputList app and_then cumulativeInputDisplayString
       cumulativeOperationDisplayString lastCumulativeNumInputList
       lastInputWasNum lastOperationWasEval].

(** A number and an operator typed into a state with empty lists. *)
Lemma presses_number_operator (ds : list Z) (op : string) (s : CalcApp) :
  plain ds -> String.eqb op "=" = false ->
  cumulativeNumInputList s = [] ->
  cumulativeOperationList s = [] ->
  skipAddingLastNumInputToOperation s = false ->
  presses (map digit ds ++ [operator op]) s
  = Returned
      (mkCalcApp (PStr "") (PStr (join " " [text ds; op])) [] (typed ds)
                 [text ds; op] false false false).
Proof.
  intros Hp Hop Hnum Hops Hskip.
  pose proof (plain_digits _ Hp) as Hds.
  pose proof (plain_not_nil _ Hp) as Hne.
  destruct s as [i od n l ops f1 f2 skip]. cbn in Hnum, Hops, Hskip. subst.
  rewrite presses_app, presses_digits_fresh by auto.
  cbn [and_then cumulativeOperationDisplayString lastCumulativeNumInputList
       cumulativeOperationList lastOperationWasEval
       skipAddingLastNumInputToOperation].
  cbn [presses]. unfold operator.
  rewrite mathPressed_operator.
  - assignments. reflexivity.
  - reflexivity.
  - apply truthy_text; assumption.
  - exact Hop.
Qed.

(** X9.  From a state with empty number and operation lists and a clear
    skip flag (the initial state, or the state after [clearAll] when the
    flag is clear), typing a number, one of [+], [-], [*], a second
    number and [=] displays the integer result; the operation display
    shows the expression typed, the number list holds the text of the
    result and the operation list is empty again.  Both numbers are
    typed without leading zero. *)
Theorem X9_integer_arithmetic_is_displayed :
  forall (o : arith) (da db : list Z) (s : CalcApp),
    plain da -> plain db ->
    List.length da + List.length db < 150 ->
    cumulativeNumInputList s = [] ->
    cumulativeOperationList s = [] ->
    skipAddingLastNumInputToOperation s = false ->
    presses (map digit da ++ [operator (symbol o)] ++ map digit db ++ [equals]) s
    = Returned
        (mkCalcApp (PInt (apply_arith o (number da) (number db)))
                   (PStr (text da ++ symbol o ++ text db))
                   [str_of_Z (apply_arith o (number da) (number db))]
                   (typed da) [] false true false).
Proof.
  intros o da db s Ha Hb Hlen Hnum Hops Hskip.
  pose proof (plain_digits _ Ha) as Hda.
  pose proof (plain_digits _ Hb) as Hdb.
  pose proof (plain_not_nil _ Hb) as Hnb.
  rewrite app_assoc, presses_app.
  rewrite presses_number_operator by auto using symbol_not_equals.
  cbn [and_then].
  rewrite presses_app, presses_digits_fresh by auto.
  cbn [and_then cumulativeOperationDisplayString lastCumulativeNumInputList
       cumulativeOperationList lastOperationWasEval
       skipAddingLastNumInputToOperation].
  cbn [presses]. unfold equals.
  assert (Hexpr :
    join "" [text da; symbol o; join "" (typed db)]
    = text da ++ symbol o ++ text db) by reflexivity.
  rewrite (mathPressed_equals_result _
             (PInt (apply_arith o (number da) (number db)))
             (str_of_Z (apply_arith o (number da) (number db)))
             (PInt (apply_arith o (number da) (number db)))).
  - cbn [and_then]. assignments. rewrite Hexpr. unfold normalize.
    rewrite normalize_from_no_parenthesis by (apply no_parenthesis_arith; auto).
    rewrite replace_pow_arith by auto. reflexivity.
  - reflexivity.
  - cbn [cumulativeNumInputList]. apply truthy_text; assumption.
  - assignments. rewrite Hexpr. unfold normalize.
    rewrite normalize_from_no_parenthesis by (apply no_parenthesis_arith; auto).
    apply py_eval_arith; assumption.
  - apply py_str_arith; assumption.
  - reflexivity.
Qed.

(** 12 [*] 8 [=] in the initial state. *)
Lemma X9_integer_arithmetic_is_displayed_witness :
  presses (map digit [1; 2]%Z ++ [operator "*"] ++ map digit [8]%Z ++ [equals])
          init
  = Returned (mkCalcApp (PInt 96) (PStr "12*8") ["96"] ["1"; "2"] []
                        false true false).
Proof.
  apply (X9_integer_arithmetic_is_displayed Times [1; 2]%Z [8]%Z init).
  - split; [repeat constructor; unfold is_digit_value; lia | discriminate].
  - split; [repeat constructor; unfold is_digit_value; lia | exact I].
  - cbn. lia.
  - reflexivity.
  - reflexivity.
  - reflexivity.
Defined.

(** *** Clearing *)

(** X10.  After [clearAll] there is nothing left to erase: a backspace
    changes nothing, whatever the flags are, and a second [clearAll]
    changes nothing either. *)
Theorem X10_nothing_to_erase_after_clearAll :
  forall s : CalcApp,
    presses [clearAll; clearLast] s = clearAll s
    /\ presses [clearAll; clearAll] s = clearAll s.
Proof.
  intros [i od n l ops f1 f2 skip].
  split; [destruct f1, f2; reflexivity | reflexivity].
Qed.

(** X11.  [clearAll] resets neither the flags nor the snapshot.  When the
    skip flag is set (a backspace took back an operator), it survives
    [clearAll], and the next number typed is not committed with its
    operator: the operation list then holds the operator alone. *)
Theorem X11_clearAll_keeps_skip_flag :
  forall (s : CalcApp) (ds : list Z) (op : string),
    Forall is_digit_value ds -> ds <> [] ->
    String.eqb op "=" = false ->
    presses (clearAll :: map digit ds ++ [operator op]) s
    = Returned
        (mkCalcApp (PStr "")
           (PStr (join " " (if skipAddingLastNumInputToOperation s
                            then [op] else [text ds; op])))
           [] (typed ds)
           (if skipAddingLastNumInputToOperation s
            then [op] else [text ds; op])
           false false false).
Proof.
  intros [i od n l ops f1 f2 skip] ds op Hds Hne Hop.
  cbn [presses]. unfold clearAll. cbn [and_then].
  rewrite presses_app, presses_digits_fresh by (auto; reflexivity).
  cbn [and_then presses]. unfold operator.
  rewrite mathPressed_operator.
  - assignments. destruct skip; reflexivity.
  - reflexivity.
  - apply truthy_text; assumption.
  - exact Hop.
Qed.

(** 1, 2, [+], backspace, then [clearAll], 3, [+]. *)
Lemma X11_clearAll_keeps_skip_flag_witness :
  presses (clearAll :: map digit [3]%Z ++ [operator "+"])
          (mkCalcApp (PStr "") (PStr "12") ["1"; "2"] ["1"; "2"] ["12"]
                     false false true)
  = Returned (mkCalcApp (PStr "") (PStr "+") [] ["3"] ["+"] false false false).
Proof.
  apply (X11_clearAll_keeps_skip_flag
           (mkCalcApp (PStr "") (PStr "12") ["1"; "2"] ["1"; "2"] ["12"]
                      false false true) [3]%Z "+").
  - repeat constructor; unfold is_digit_value; lia.
  - discriminate.
  - reflexivity.
Defined.

(** *** Squaring *)

Lemma nonempty_typed (ds : list Z) : ds <> [] -> nonempty (typed ds) = true.
Proof. destruct ds; [congruence | reflexivity]. Qed.

Lemma join_empty_single (x : string) : join "" [x] = x.
Proof. reflexivity. Qed.

Lemma truthy_append (a b : string) : truthy a = true -> truthy (a ++ b) = true.
Proof. destruct a; [discriminate | reflexivity]. Qed.

(** X12.  From a state with empty number and operation lists and a clear
    skip flag, typing a natural number without leading zero and pressing
    the square button displays the square of the number; the operation
    display shows the product evaluated, the number list holds the text
    of the result and the snapshot is left as it was. *)
Theorem X12_square_of_a_typed_number :
  forall (ds : list Z) (s : CalcApp),
    plain ds ->
    2 * List.length ds < 150 ->
    cumulativeNumInputList s = [] ->
    cumulativeOperationList s = [] ->
    skipAddingLastNumInputToOperation s = false ->
    presses (map digit ds ++ [square]) s
    = Returned
        (mkCalcApp (PInt (number ds * number ds))
                   (PStr (text ds ++ "*" ++ text ds))
                   [str_of_Z (number ds * number ds)]
                   (lastCumulativeNumInputList s) [] false true false).
Proof.
  intros ds s Hp Hlen Hnum Hops Hskip.
  pose proof (plain_digits _ Hp) as Hds.
  pose proof (plain_not_nil _ Hp) as Hne.
  destruct s as [i od n l ops f1 f2 skip]. cbn in Hnum, Hops, Hskip. subst.
  rewrite presses_app, presses_digits_fresh by auto.
  cbn [and_then presses cumulativeOperationDisplayString
       lastCumulativeNumInputList cumulativeOperationList
       lastOperationWasEval skipAddingLastNumInputToOperation].
  unfold square. cbn [cumulativeNumInputList].
  rewrite nonempty_typed by exact Hne. fold (text ds).
  remember (typed ds ++ [("*" ++ text ds)%string])%list as items eqn:Hitems.
  assert (Hexpr : join "" items = text ds ++ symbol Times ++ text ds).
  { subst items. rewrite join_empty_app, join_empty_single. reflexivity. }
  rewrite (mathPressed_equals_result _
             (PInt (apply_arith Times (number ds) (number ds)))
             (str_of_Z (apply_arith Times (number ds) (number ds)))
             (PInt (apply_arith Times (number ds) (number ds)))).
  - assignments. rewrite join_empty_single, Hexpr. unfold normalize.
    rewrite normalize_from_no_parenthesis by (apply no_parenthesis_arith; auto).
    rewrite replace_pow_arith by auto. reflexivity.
  - reflexivity.
  - assignments. rewrite Hexpr. apply truthy_append, truthy_text; assumption.
  - assignments. rewrite join_empty_single, Hexpr. unfold normalize.
    rewrite normalize_from_no_parenthesis by (apply no_parenthesis_arith; auto).
    apply py_eval_arith; [assumption | assumption | lia].
  - apply py_str_arith; [assumption | assumption | lia].
  - reflexivity.
Qed.

(** 1, 2 and the square button in the initial state. *)
Lemma X12_square_of_a_typed_number_witness :
  presses (map digit [1; 2]%Z ++ [square]) init
  = Returned (mkCalcApp (PInt 144) (PStr "12*12") ["144"] [] []
                        false true false).
Proof.
  apply (X12_square_of_a_typed_number [1; 2]%Z init).
  - split; [repeat constructor; unfold is_digit_value; lia | discriminate].
  - cbn. lia.
  - reflexivity.
  - reflexivity.
  - reflexivity.
Defined.

(** *** Leading zeros *)

Lemma number_cons (d : Z) (ds : list Z) :
  number (d :: ds) = fold_left (fun a x => (10 * a + x)%Z) ds d.
Proof. reflexivity. Qed.

(** A numeral with a leading zero and a value other than zero is not a
    Python literal. *)
Lemma py_eval_leading_zero (ds : list Z) :
  Forall is_digit_value ds ->
  number ds <> 0%Z ->
  List.length ds < 150 ->
  py_eval (text (0%Z :: ds)) = Raise SyntaxError.
Proof.
  intros Hds Hval Hlen.
  assert (Hne : ds <> []) by (intros ->; apply Hval; reflexivity).
  assert (Hall : Forall is_digit_value (0%Z :: ds))
    by (constructor; [unfold is_digit_value; lia | exact Hds]).
  unfold py_eval.
  replace (150 <? String.length (text (0%Z :: ds)))%nat with false.
  2:{ symmetry. apply Nat.ltb_ge. rewrite length_text by exact Hall.
      cbn [List.length]. lia. }
  rewrite <- (append_empty_r (text (0%Z :: ds))).
  rewrite lex_number
    by (try apply all_digits_text; try apply text_not_empty;
        auto; discriminate).
  cbn [lex]. unfold flush.
  rewrite (Z_of_digits_text _ Hall). fold (number (0%Z :: ds)).
  rewrite number_cons. fold (number ds).
  rewrite text_cons.
  destruct (head_digit_text ds Hds Hne) as (c & t & -> & _).
  change (str_of_Z 0) with "0". cbn [String.append bind].
  apply Z.eqb_neq in Hval. rewrite Hval. reflexivity.
Qed.

(** X13.  A number typed with a leading zero and a value other than
    zero cannot be evaluated: the equals button shows ["ERROR"].  The
    number typed has then been committed to the operation list and
    stays in the number list. *)
Theorem X13_leading_zero_is_an_error :
  forall (ds : list Z) (s : CalcApp),
    Forall is_digit_value ds ->
    number ds <> 0%Z ->
    List.length ds < 150 ->
    cumulativeNumInputList s = [] ->
    cumulativeOperationList s = [] ->
    skipAddingLastNumInputToOperation s = false ->
    presses (map digit (0%Z :: ds) ++ [equals]) s
    = Returned
        (mkCalcApp (PStr "ERROR") (cumulativeOperationDisplayString s)
                   (typed (0%Z :: ds)) (lastCumulativeNumInputList s)
                   [text (0%Z :: ds)] false (lastOperationWasEval s) false).
Proof.
  intros ds s Hds Hval Hlen Hnum Hops Hskip.
  assert (Hall : Forall is_digit_value (0%Z :: ds))
    by (constructor; [unfold is_digit_value; lia | exact Hds]).
  destruct s as [i od n l ops f1 f2 skip]. cbn in Hnum, Hops, Hskip. subst.
  rewrite presses_app, presses_digits_fresh by (auto; discriminate).
  cbn [and_then presses cumulativeOperationDisplayString
       lastCumulativeNumInputList cumulativeOperationList
       lastOperationWasEval skipAddingLastNumInputToOperation].
  unfold equals. remember (0%Z :: ds) as zs eqn:Hzs.
  rewrite mathPressed_equals.
  2:{ reflexivity. }
  2:{ apply truthy_text; [exact Hall | subst zs; discriminate]. }
  rewrite evaluate_expression. assignments.
  rewrite join_empty_single. fold (text zs).
  unfold normalize.
  rewrite normalize_from_no_parenthesis
    by (apply digits_no_parenthesis, all_digits_text, Hall).
  subst zs. rewrite (py_eval_leading_zero ds Hds Hval Hlen). reflexivity.
Qed.

(** 0, 7 and the equals button in the initial state. *)
Lemma X13_leading_zero_is_an_error_witness :
  presses (map digit [0; 7]%Z ++ [equals]) init
  = Returned (mkCalcApp (PStr "ERROR") (PStr "") ["0"; "7"] [] ["07"]
                        false false false).
Proof.
  apply (X13_leading_zero_is_an_error [7]%Z init).
  - repeat constructor; unfold is_digit_value; lia.
  - discriminate.
  - cbn. lia.
  - reflexivity.
  - reflexivity.
  - reflexivity.
Defined.

(** *** Powers *)

Lemma replace_pow_power (da db : list Z) :
  Forall is_digit_value da -> Forall is_digit_value db ->
  replace_pow (text da ++ "**" ++ text db) = text da ++ "^" ++ text db.
Proof.
  intros Hda Hdb.
  rewrite replace_pow_digits_app by (apply all_digits_text, Hda).
  cbn [String.append replace_pow].
  rewrite replace_pow_digits by (apply all_digits_text, Hdb). reflexivity.
Qed.

(** A number, the power button and further digits. *)
Lemma presses_power (da db : list Z) (s : CalcApp) :
  Forall is_digit_value da -> da <> [] ->
  Forall is_digit_value db ->
  cumulativeNumInputList s = [] ->
  presses (map digit da ++ [exponentiate] ++ map digit db) s
  = Returned
      (mkCalcApp (PStr (text da ++ "^" ++ text db))
                 (cumulativeOperationDisplayString s)
                 (typed da ++ ["**"] ++ typed db)
                 (lastCumulativeNumInputList s) (cumulativeOperationList s)
                 true (lastOperationWasEval s)
                 (skipAddingLastNumInputToOperation s)).
Proof.
  intros Hda Hne Hdb Hnum.
  destruct s as [i od n l ops f1 f2 skip]. cbn in Hnum. subst.
  rewrite presses_app, presses_digits_fresh by auto.
  cbn [and_then presses app cumulativeOperationDisplayString
       lastCumulativeNumInputList cumulativeOperationList
       lastOperationWasEval skipAddingLastNumInputToOperation].
  unfold exponentiate. cbn [cumulativeNumInputList].
  rewrite nonempty_typed by exact Hne.
  unfold set_inputDisplay, set_numInputList.
  cbn [and_then cumulativeInputDisplayString cumulativeOperationDisplayString
       cumulativeNumInputList lastCumulativeNumInputList
       cumulativeOperationList lastInputWasNum lastOperationWasEval
       skipAddingLastNumInputToOperation].
  assert (Hjoin : join "" (typed da ++ ["**"] ++ typed db)
                  = text da ++ "**" ++ text db).
  { rewrite !join_empty_app. reflexivity. }
  destruct db as [|d db].
  - cbn [map presses]. rewrite app_nil_r in Hjoin. cbn [app] in Hjoin.
    rewrite Hjoin.
    rewrite (replace_pow_power da [] Hda Hdb). reflexivity.
  - rewrite map_digit.
    rewrite (presses_numbers (map PInt (d :: db)) (typed (d :: db)))
      by (try apply typed_digits_values; auto; discriminate).
    cbn [cumulativeInputDisplayString cumulativeOperationDisplayString
         cumulativeNumInputList lastCumulativeNumInputList
         cumulativeOperationList lastInputWasNum lastOperationWasEval
         skipAddingLastNumInputToOperation].
    rewrite <- app_assoc. rewrite Hjoin.
    rewrite (replace_pow_power da (d :: db) Hda Hdb). reflexivity.
Qed.

(** X14.  The power button appends the item ["**"] to a number being
    typed; the input display shows it as [^], also while further digits
    are typed.  Nothing but the number list and the input display
    changes. *)
Theorem X14_power_is_displayed_as_caret :
  forall (da db : list Z) (s : CalcApp),
    Forall is_digit_value da -> da <> [] ->
    Forall is_digit_value db ->
    cumulativeNumInputList s = [] ->
    presses (map digit da ++ [exponentiate] ++ map digit db) s
    = Returned
        (mkCalcApp (PStr (text da ++ "^" ++ text db))
                   (cumulativeOperationDisplayString s)
                   (typed da ++ ["**"] ++ typed db)
                   (lastCumulativeNumInputList s) (cumulativeOperationList s)
                   true (lastOperationWasEval s)
                   (skipAddingLastNumInputToOperation s)).
Proof.
  intros da db s Hda Hne Hdb Hnum. apply presses_power; assumption.
Qed.

(** 2, the power button, 1, 0 in the initial state. *)
Lemma X14_power_is_displayed_as_caret_witness :
  presses (map digit [2]%Z ++ [exponentiate] ++ map digit [1; 0]%Z) init
  = Returned (mkCalcApp (PStr "2^10") (PStr "") ["2"; "**"; "1"; "0"] [] []
                        true false false).
Proof.
  apply (X14_power_is_displayed_as_caret [2]%Z [1; 0]%Z init).
  - repeat constructor; unfold is_digit_value; lia.
  - discriminate.
  - repeat constructor; unfold is_digit_value; lia.
  - reflexivity.
Defined.

Lemma lex_power (da db : list Z) :
  plain da -> plain db ->
  lex None (text da ++ "**" ++ text db)
  = Ok [TNum (PInt (number da)); TPow; TNum (PInt (number db))].
Proof.
  intros Ha Hb.
  pose proof (plain_digits _ Ha) as Hda. pose proof (plain_digits _ Hb) as Hdb.
  rewrite lex_number
    by (try apply all_digits_text; try apply text_not_empty;
        auto using plain_not_nil).
  assert (Hrest : lex None (text db) = Ok [TNum (PInt (number db))]).
  { rewrite <- (append_empty_r (text db)).
    rewrite lex_number
      by (try apply all_digits_text; try apply text_not_empty;
          auto using plain_not_nil).
    cbn [lex]. apply flush_plain, Hb. }
  change (lex (Some (text da, None)) ("**" ++ text db))
    with (emit (Some (text da, None)) TPow (lex None (text db))).
  unfold emit. rewrite (flush_plain da Ha), Hrest. reflexivity.
Qed.

(** [eval] on [a**b] for two typed numbers: the exact integer power. *)
Lemma py_eval_power (da db : list Z) :
  plain da -> plain db ->
  List.length da + List.length db < 148 ->
  py_eval (text da ++ "**" ++ text db)
  = Ok (PInt (number da ^ number db)).
Proof.
  intros Ha Hb Hlen. unfold py_eval.
  replace (150 <? String.length (text da ++ "**" ++ text db))%nat with false.
  2:{ symmetry. apply Nat.ltb_ge.
      rewrite !length_append, !length_text by auto using plain_digits.
      cbn [String.length]. lia. }
  rewrite (lex_power da db Ha Hb). cbn [bind].
  pose proof (number_range db (plain_digits _ Hb)) as [Hnonneg _].
  apply Z.leb_le in Hnonneg.
  generalize dependent (number db). generalize (number da). intros a b Hb0.
  change (parse_expression [TNum (PInt a); TPow; TNum (PInt b)])
    with (Ok (EBin Pow (ENum (PInt a)) (ENum (PInt b)))).
  cbn [bind eval_expr apply_binop]. rewrite Hb0. reflexivity.
Qed.

(** X15.  From a state with empty number and operation lists and a clear
    skip flag, typing a number, the power button, a second number and
    [=] displays the exact integer power, as long as it has at most 4300
    digits; the operation display shows the expression with [^].  Both
    numbers are typed without leading zero. *)
Theorem X15_integer_power_is_displayed :
  forall (da db : list Z) (s : CalcApp),
    plain da -> plain db ->
    List.length da + List.length db < 148 ->
    (number da ^ number db < 10 ^ 4300)%Z ->
    cumulativeNumInputList s = [] ->
    cumulativeOperationList s = [] ->
    skipAddingLastNumInputToOperation s = false ->
    presses (map digit da ++ [exponentiate] ++ map digit db ++ [equals]) s
    = Returned
        (mkCalcApp (PInt (number da ^ number db))
                   (PStr (text da ++ "^" ++ text db))
                   [str_of_Z (number da ^ number db)]
                   (lastCumulativeNumInputList s) [] false true false).
Proof.
  intros da db s Ha Hb Hlen Hsize Hnum Hops Hskip.
  pose proof (plain_digits _ Ha) as Hda. pose proof (plain_digits _ Hb) as Hdb.
  pose proof (plain_not_nil _ Ha) as Hna.
  replace (map digit da ++ [exponentiate] ++ map digit db ++ [equals])%list
    with ((map digit da ++ [exponentiate] ++ map digit db) ++ [equals])%list
    by (rewrite <- !app_assoc; reflexivity).
  rewrite presses_app, presses_power by assumption.
  destruct s as [i od n l ops f1 f2 skip]. cbn in Hnum, Hops, Hskip. subst.
  cbn [and_then presses cumulativeOperationDisplayString
       lastCumulativeNumInputList cumulativeOperationList
       lastOperationWasEval skipAddingLastNumInputToOperation].
  unfold equals.
  remember (typed da ++ ["**"] ++ typed db)%list as items eqn:Hitems.
  assert (Hexpr : join "" items = text da ++ "**" ++ text db).
  { subst items. rewrite !join_empty_app. reflexivity. }
  assert (Hnone : existsb_string is_parenthesis (text da ++ "**" ++ text db)
                  = false).
  { rewrite !existsb_string_app.
    rewrite (digits_no_parenthesis (text da)) by (apply all_digits_text, Hda).
    rewrite (digits_no_parenthesis (text db)) by (apply all_digits_text, Hdb).
    reflexivity. }
  rewrite (mathPressed_equals_result _
             (PInt (number da ^ number db))
             (str_of_Z (number da ^ number db))
             (PInt (number da ^ number db))).
  - assignments. rewrite join_empty_single, Hexpr. unfold normalize.
    rewrite normalize_from_no_parenthesis by exact Hnone.
    rewrite replace_pow_power by assumption. reflexivity.
  - reflexivity.
  - assignments. rewrite Hexpr. apply truthy_append, truthy_text; assumption.
  - assignments. rewrite join_empty_single, Hexpr. unfold normalize.
    rewrite normalize_from_no_parenthesis by exact Hnone.
    apply py_eval_power; assumption.
  - cbn [py_str].
    replace (Z.abs (number da ^ number db) <? 10 ^ 4300)%Z with true;
      [reflexivity|].
    symmetry. apply Z.ltb_lt. rewrite Z.abs_eq; [exact Hsize|].
    apply Z.pow_nonneg. apply (number_range da Hda).
  - reflexivity.
Qed.

(** 2, the power button, 1, 0 and [=] in the initial state. *)
Lemma X15_integer_power_is_displayed_witness :
  presses (map digit [2]%Z ++ [exponentiate] ++ map digit [1; 0]%Z ++ [equals])
          init
  = Returned (mkCalcApp (PInt 1024) (PStr "2^10") ["1024"] [] []
                        false true false).
Proof.
  apply (X15_integer_power_is_displayed [2]%Z [1; 0]%Z init).
  - split; [repeat constructor; unfold is_digit_value; lia | exact I].
  - split; [repeat constructor; unfold is_digit_value; lia | discriminate].
  - cbn. lia.
  - vm_compute. reflexivity.
  - reflexivity.
  - reflexivity.
  - reflexivity.
Defined.

(** *** Logarithm of zero *)

Lemma digits_in_float (s : string) :
  all_digits s = true ->
  existsb_string never_in_float s = false
  /\ forallb_string float_char s = true
  /\ split_point s = (s, None).
Proof.
  induction s as [|c s IH]; [repeat split|].
  cbn [all_digits]. intros H. apply andb_prop in H as [Hc Hs].
  destruct (IH Hs) as (H1 & H2 & H3).
  cbn [existsb_string forallb_string split_point]. rewrite H1, H2, H3.
  destruct c as [[] [] [] [] [] [] [] []]; try discriminate Hc;
    repeat split; reflexivity.
Qed.

(** [float] of typed zeros. *)
Lemma py_float_zero (ds : list Z) :
  Forall is_digit_value ds -> ds <> [] -> number ds = 0%Z ->
  py_float (text ds) = Ok 0%float.
Proof.
  intros Hds Hne Hval.
  pose proof (all_digits_text ds Hds) as Hall.
  destruct (digits_in_float _ Hall) as (H1 & H2 & H3).
  assert (Hlen : (String.length (text ds) =? 0)%nat = false).
  { rewrite length_text by exact Hds.
    destruct ds; [congruence | reflexivity]. }
  assert (Hdec : float_of_decimal false (text ds) = Ok 0%float).
  { unfold float_of_decimal. rewrite H3, Hall, Hlen, append_empty_r.
    rewrite (Z_of_digits_text ds Hds). fold (number ds). rewrite Hval.
    reflexivity. }
  unfold py_float. rewrite H1, H2.
  destruct (head_digit_text ds Hds Hne) as (c & t & Htext & Hc).
  rewrite Htext in *.
  destruct c as [[] [] [] [] [] [] [] []]; try discriminate Hc; exact Hdec.
Qed.

(** X16.  The logarithm of zero, in either base, is an error: after a
    number of zeros is typed, the logarithm buttons show ["ERROR"] and
    leave everything else, the number list included, as it was. *)
Theorem X16_logarithm_of_zero_is_an_error :
  forall (libm_log10 libm_log : float -> float) (base : option Z)
         (ds : list Z) (s : CalcApp),
    Forall is_digit_value ds -> ds <> [] -> number ds = 0%Z ->
    cumulativeNumInputList s = [] ->
    presses (map digit ds ++ [logarithms libm_log10 libm_log base]) s
    = Returned
        (mkCalcApp (PStr "ERROR") (cumulativeOperationDisplayString s)
                   (typed ds) (lastCumulativeNumInputList s)
                   (cumulativeOperationList s) true (lastOperationWasEval s)
                   (skipAddingLastNumInputToOperation s)).
Proof.
  intros libm_log10 libm_log base ds s Hds Hne Hval Hnum.
  destruct s as [i od n l ops f1 f2 skip]. cbn in Hnum. subst.
  rewrite presses_app, presses_digits_fresh by auto.
  cbn [and_then presses cumulativeOperationDisplayString
       lastCumulativeNumInputList cumulativeOperationList
       lastOperationWasEval skipAddingLastNumInputToOperation].
  unfold logarithms. cbn [cumulativeNumInputList].
  rewrite nonempty_typed by exact Hne. fold (text ds).
  rewrite (py_float_zero ds Hds Hne Hval). reflexivity.
Qed.

(** 0 and the decimal logarithm in the initial state. *)
Lemma X16_logarithm_of_zero_is_an_error_witness :
  presses (map digit [0]%Z ++ [logarithms (fun x => x) (fun x => x) (Some 10%Z)])
          init
  = Returned (mkCalcApp (PStr "ERROR") (PStr "") ["0"] [] [] true false false).
Proof.
  apply (X16_logarithm_of_zero_is_an_error
           (fun x => x) (fun x => x) (Some 10%Z) [0]%Z init).
  - repeat constructor; unfold is_digit_value; lia.
  - discriminate.
  - reflexivity.
  - reflexivity.
Defined.

(** *** Changing the operator *)

(** Reads and writes of attributes on an explicit state. *)
Ltac fields :=
  cbv [set_operationDisplay set_inputDisplay set_lastOperationWasEval
       set_numInputList set_lastNumInputList set_operationList
       set_lastInputWasNum set_skipAdding
       skipAddingLastNumInputToOperation cumulativeOperationList
       cumulativeNumInputList cumulativeInputDisplayString
       cumulativeOperationDisplayString lastCumulativeNumInputList
       lastInputWasNum lastOperationWasEval].

(** Backspace when the last input was an operator: the last item of the
    operation list is removed, whatever it is. *)
Lemma clearLast_after_operator (s : CalcApp) (items : list string)
      (x : string) :
  lastInputWasNum s = false ->
  lastOperationWasEval s = false ->
  cumulativeOperationList s = (items ++ [x])%list ->
  clearLast s
  = Returned
      (mkCalcApp (cumulativeInputDisplayString s) (PStr (join " " items))
                 (lastCumulativeNumInputList s) (lastCumulativeNumInputList s)
                 items false false true).
Proof.
  destruct s as [i od n l ops f1 f2 skip]. cbn. intros -> -> ->.
  unfold clearLast. fields. cbn [andb negb].
  replace (List.length (items ++ [x]) =? 0)%nat with false
    by (symmetry; apply Nat.eqb_neq; rewrite length_app; cbn; lia).
  rewrite removelast_last. reflexivity.
Qed.

Lemma last_item_last (items : list string) (x : string) :
  last_item (items ++ [x]) = Ok x.
Proof.
  unfold last_item. rewrite last_last.
  destruct items; reflexivity.
Qed.

(** X17.  Choosing another operator after taking one back with backspace
    does not replace the operator but the operand: the operation list
    loses the number committed with the first operator and receives the
    new value, which may even be [=], in its place. *)
Theorem X17_operator_after_backspace_replaces_operand :
  forall (s : CalcApp) (op1 op2 : string),
    lastInputWasNum s || lastOperationWasEval s = true ->
    truthy (join "" (cumulativeNumInputList s)) = true ->
    String.eqb op1 "=" = false ->
    skipAddingLastNumInputToOperation s = false ->
    String.eqb (join "" (cumulativeNumInputList s)) op2 = false ->
    presses [operator op1; clearLast; operator op2] s
    = Returned
        (mkCalcApp (PStr "")
           (PStr (join " " (cumulativeOperationList s ++ [op2])))
           [] (cumulativeNumInputList s)
           (cumulativeOperationList s ++ [op2])
           false false false).
Proof.
  intros s op1 op2 Hflags Hnum Hop1 Hskip Hop2.
  cbn [presses]. unfold operator.
  rewrite (mathPressed_operator op1 s Hflags Hnum Hop1).
  destruct s as [i od n l ops f1 f2 skip]. cbn in Hnum, Hskip, Hop2. subst skip.
  unfold append_operator, commit_input. fields. cbn [negb and_then].
  remember (join "" n) as typed_text eqn:Htext.
  rewrite (clearLast_after_operator _ (ops ++ [typed_text]) op1)
    by reflexivity.
  fields. cbn [and_then].
  unfold mathPressed. fields. cbn [negb andb].
  rewrite <- Htext, Hnum.
  unfold replace_operator. fields.
  rewrite last_item_last. cbn [call]. rewrite Hop2.
  rewrite (clearLast_after_operator _ ops typed_text) by reflexivity.
  fields. cbn [and_then]. reflexivity.
Qed.

(** 1, 2, [+], backspace, [*]: the operation list is left as [["*"]]. *)
Lemma X17_operator_after_backspace_replaces_operand_witness :
  presses [operator "+"; clearLast; operator "*"]
          (mkCalcApp (PStr "12") (PStr "") ["1"; "2"] [] [] true false false)
  = Returned (mkCalcApp (PStr "") (PStr "*") [] ["1"; "2"] ["*"]
                        false false false).
Proof.
  apply (X17_operator_after_backspace_replaces_operand
           (mkCalcApp (PStr "12") (PStr "") ["1"; "2"] [] [] true false false)
           "+" "*"); reflexivity.
Defined.

(** *** Erasing a negated number *)

Lemma chars_text (ds : list Z) :
  Forall is_digit_value ds -> chars (text ds) = typed ds.
Proof.
  induction 1 as [|d ds Hd _ IH]; [reflexivity|].
  rewrite text_cons. unfold typed. cbn [map]. fold (typed ds).
  destruct (digit_text d Hd) as (c & -> & _).
  cbn [String.append chars]. now rewrite IH.
Qed.

(** Backspace on a sign followed by one item empties the number list. *)
Lemma clearLast_sign (s : CalcApp) (t : string) :
  lastInputWasNum s = true ->
  cumulativeNumInputList s = ["-"; t] ->
  clearLast s
  = Returned (set_inputDisplay (PStr "0") (set_numInputList [] s)).
Proof.
  destruct s as [i od n l ops f1 f2 skip]. cbn. intros -> ->.
  unfold clearLast. fields. rewrite andb_false_r. reflexivity.
Qed.

(** Backspaces that leave at least two items. *)
Lemma clearLast_run_long (ts : list string) :
  forall (l : list string) (s : CalcApp),
    lastInputWasNum s = true ->
    cumulativeNumInputList s = (l ++ ts)%list ->
    2 <= List.length l ->
    ts <> [] ->
    presses (repeat clearLast (List.length ts)) s
    = Returned (set_inputDisplay (PStr (join "" l)) (set_numInputList l s)).
Proof.
  induction ts as [|t ts IH] using rev_ind; intros l s Hnum Hlist Hlen Hne;
    [congruence|].
  rewrite length_app. cbn [List.length].
  replace (List.length ts + 1) with (S (List.length ts)) by lia.
  cbn [repeat presses].
  rewrite app_assoc in Hlist.
  rewrite (clearLast_typing s (l ++ ts)%list t Hnum Hlist).
  2:{ intros Heq. apply (f_equal (@List.length string)) in Heq.
      rewrite length_app in Heq. cbn in Heq. lia. }
  cbn [and_then].
  destruct ts as [|t' ts'].
  - rewrite app_nil_r. cbn [List.length repeat presses].
    destruct l as [|x l]; [cbn in Hlen; lia | reflexivity].
  - rewrite IH with (l := l).
    + destruct s; reflexivity.
    + exact Hnum.
    + reflexivity.
    + exact Hlen.
    + discriminate.
Qed.

(** X18.  Erasing a negated number: after a number is typed into an
    empty number list and its sign is flipped, as many backspaces as
    digits were typed erase the digits and the sign; the number list is
    empty and the input display shows ["0"]. *)
Theorem X18_backspace_erases_the_sign :
  forall (ds : list Z) (s : CalcApp),
    Forall is_digit_value ds -> ds <> [] ->
    cumulativeNumInputList s = [] ->
    presses (map digit ds ++ [invert] ++ repeat clearLast (List.length ds)) s
    = Returned
        (mkCalcApp (PStr "0") (cumulativeOperationDisplayString s) []
                   (lastCumulativeNumInputList s) (cumulativeOperationList s)
                   true (lastOperationWasEval s)
                   (skipAddingLastNumInputToOperation s)).
Proof.
  intros ds s Hds Hne Hnum.
  destruct s as [i od n l ops f1 f2 skip]. cbn in Hnum. subst.
  rewrite presses_app, presses_digits_fresh by auto.
  cbn [and_then app presses cumulativeOperationDisplayString
       lastCumulativeNumInputList cumulativeOperationList
       lastOperationWasEval skipAddingLastNumInputToOperation].
  destruct (head_digit_text ds Hds Hne) as (c & t & Htext & Hc).
  rewrite (invert_numeric _ c t).
  2:{ exact Htext. }
  2:{ unfold is_digit in Hc. unfold isnumeric. cbv zeta. rewrite Hc.
      reflexivity. }
  rewrite <- Htext. cbn [chars]. rewrite (chars_text ds Hds).
  fields. cbn [and_then].
  destruct ds as [|d rest]; [congruence|].
  unfold typed. cbn [map]. fold (typed rest).
  destruct rest as [|d' rest'].
  - cbn [List.length repeat presses typed map].
    rewrite (clearLast_sign _ (str_of_Z d)) by reflexivity. reflexivity.
  - remember (d' :: rest') as rest eqn:Hrest.
    cbn [List.length repeat]. rewrite repeat_cons, presses_app.
    replace (List.length rest) with (List.length (typed rest))
      by (unfold typed; apply length_map).
    rewrite (clearLast_run_long (typed rest) ["-"; str_of_Z d]).
    + fields. cbn [and_then presses].
      rewrite (clearLast_sign _ (str_of_Z d)) by reflexivity. reflexivity.
    + reflexivity.
    + reflexivity.
    + cbn. lia.
    + subst rest. discriminate.
Qed.

(** 4, 2, the sign button and two backspaces in the initial state. *)
Lemma X18_backspace_erases_the_sign_witness :
  presses (map digit [4; 2]%Z ++ [invert] ++ repeat clearLast 2) init
  = Returned (mkCalcApp (PStr "0") (PStr "") [] [] [] true false false).
Proof.
  apply (X18_backspace_erases_the_sign [4; 2]%Z init).
  - repeat constructor; unfold is_digit_value; lia.
  - discriminate.
  - reflexivity.
Defined.
